(** * DiaWell: the input-normalisation and risk-scoring pipeline of [app.py]

    A shallow embedding of [to_number], [clamp] and the [/predict] route of
    [src/app.py].  Python objects are modelled as the code uses them: an [int]
    is a [Z], a [float] is an IEEE binary64 number (Rocq's primitive [float]),
    [None] is [None], the form is Flask's multi-dictionary (an association
    list read by first match), the two configuration dictionaries are
    association lists whose lookup raises [KeyError], and the [patients] table
    is the list of rows inserted so far.  Exceptions are explicit: every
    operation that can raise returns an [exc]. *)

From Stdlib Require Import ZArith List String Ascii Bool Lia Permutation.
From Stdlib Require Import Floats DecimalString.
Import ListNotations.

Set Warnings "-inexact-float".

Local Open Scope string_scope.
Local Open Scope Z_scope.

(** ** Exceptions *)

Inductive exn : Type :=
| KeyError (key : string)
| IndexError (index size : nat)
| TypeError (msg : string)
| OverflowError (msg : string)
| ModelError (msg : string).

Inductive exc (A : Type) : Type :=
| Ok (a : A)
| Raise (e : exn).

Arguments Ok {A} a.
Arguments Raise {A} e.

Definition bind {A B : Type} (c : exc A) (k : A -> exc B) : exc B :=
  match c with
  | Ok a => k a
  | Raise e => Raise e
  end.

Declare Scope exc_scope.
Delimit Scope exc_scope with exc.
Notation "x <- c ;; k" := (bind c (fun x => k))
  (at level 61, c at next level, right associativity) : exc_scope.
Notation "' p <- c ;; k" := (bind c (fun p => k))
  (at level 61, p pattern, c at next level, right associativity) : exc_scope.
Local Open Scope exc_scope.

Definition dec (n : nat) : string := NilZero.string_of_uint (Nat.to_uint n).

(** [str(e)], the text an f-string interpolates for an exception. *)
Definition str (e : exn) : string :=
  match e with
  | KeyError k => "'" ++ k ++ "'"
  | IndexError i n =>
      "index " ++ dec i ++ " is out of bounds for axis 0 with size " ++ dec n
  | TypeError m => m
  | OverflowError m => m
  | ModelError m => m
  end.

(** ** Python numbers *)

Inductive pyval : Type :=
| VInt (z : Z)
| VFloat (f : float).

(** A Python object that is a number or [None]. *)
Definition pyobj : Type := option pyval.

(** Exact comparison of a float with an int, as CPython's [float_richcompare]
    does it; [None] when the float is a NaN. *)
Definition float_cmp_int (f : float) (z : Z) : option comparison :=
  match Prim2SF f with
  | S754_nan => None
  | S754_infinity s => Some (if s then Lt else Gt)
  | S754_zero _ => Some (0 ?= z)
  | S754_finite s m e =>
      let n := if s then Z.neg m else Z.pos m in
      Some (if 0 <=? e then n * 2 ^ e ?= z else n ?= z * 2 ^ (- e))
  end.

(** [a < b] *)
Definition py_lt (a b : pyval) : bool :=
  match a, b with
  | VInt x, VInt y => x <? y
  | VFloat x, VFloat y => PrimFloat.ltb x y
  | VFloat x, VInt y =>
      match float_cmp_int x y with Some Lt => true | _ => false end
  | VInt x, VFloat y =>
      match float_cmp_int y x with Some Gt => true | _ => false end
  end.

(** [a > b] *)
Definition py_gt (a b : pyval) : bool := py_lt b a.

(** [a <= b] *)
Definition py_le (a b : pyval) : bool :=
  match a, b with
  | VInt x, VInt y => x <=? y
  | VFloat x, VFloat y => PrimFloat.leb x y
  | VFloat x, VInt y =>
      match float_cmp_int x y with Some (Lt | Eq) => true | _ => false end
  | VInt x, VFloat y =>
      match float_cmp_int y x with Some (Gt | Eq) => true | _ => false end
  end.

(** The two-argument built-ins [min(a, b)] and [max(a, b)]: the first
    argument is kept unless the second is strictly smaller (larger). *)
Definition py_min (a b : pyval) : pyval := if py_lt b a then b else a.
Definition py_max (a b : pyval) : pyval := if py_gt b a then b else a.

(** Truth value of an object: [None], [0], [0.0] and [-0.0] are false. *)
Definition truthy (x : pyobj) : bool :=
  match x with
  | None => false
  | Some (VInt z) => negb (z =? 0)
  | Some (VFloat f) => negb (PrimFloat.eqb f 0%float)
  end.

(** ** Dictionaries with string keys *)

Fixpoint assoc {V : Type} (k : string) (d : list (string * V)) : option V :=
  match d with
  | [] => None
  | (k', v) :: d' => if String.eqb k' k then Some v else assoc k d'
  end.

(** [d[k]] *)
Definition getitem {V : Type} (d : list (string * V)) (k : string) : exc V :=
  match assoc k d with
  | Some v => Ok v
  | None => Raise (KeyError k)
  end.

(** ** Configuration *)

Definition RANGES : list (string * (pyval * pyval)) :=
  [ ("pregnancies", (VInt 0, VInt 20));
    ("age", (VInt 1, VInt 120));
    ("glucose", (VInt 20, VInt 500));
    ("bloodpressure", (VInt 20, VInt 200));
    ("skinthickness", (VInt 5, VInt 100));
    ("insulin", (VInt 0, VInt 900));
    ("bmi", (VFloat 10.0%float, VFloat 70.0%float));
    ("dpf", (VFloat 0.0%float, VFloat 3.0%float)) ].

Definition DEFAULTS : list (string * pyval) :=
  [ ("pregnancies", VInt 0);
    ("skinthickness", VInt 10);
    ("dpf", VFloat 0.2%float) ].

(** ** [to_number] and [clamp] *)

(** [cast] is the conversion handed in ([int] or [float]); it answers [None]
    where the Python call raises, which the bare [except] turns into
    [default]. *)
Definition to_number (val : option string) (cast : string -> option pyval)
    (default : pyobj) : pyobj :=
  match val with
  | None => default
  | Some s =>
      if String.eqb s "" then default
      else match cast s with
           | Some v => Some v
           | None => default
           end
  end.

Definition clamp (name : string) (val : pyobj) : exc pyobj :=
  match val with
  | None => Ok None
  | Some v =>
      '(lo, hi) <- getitem RANGES name ;;
      Ok (Some (py_max lo (py_min hi v)))
  end.

(** ** The classifier and the NumPy boundary *)

(** The unpickled scikit-learn model: [predict_proba] answers a 2-D array of
    probabilities, [predict] a 1-D array of class labels ([model.py] fits it
    on the integer [Outcome] column).  Either call may raise. *)
Record Classifier : Type := {
  predict_proba : list (list float) -> exc (list (list float));
  predict_class : list (list float) -> exc (list Z)
}.

(** [a[i]] on an array. *)
Definition index {A : Type} (a : list A) (i : nat) : exc A :=
  match nth_error a i with
  | Some x => Ok x
  | None => Raise (IndexError i (List.length a))
  end.

(** Conversion of a Python int to binary64, rounding to nearest even. *)
Definition float_of_int (z : Z) : float :=
  SF2Prim (binary_normalize prec emax z 0 false).

(** One entry of [np.array(..., dtype=float)]. *)
Definition to_double (x : pyobj) : exc float :=
  match x with
  | None =>
      Raise (TypeError
        "float() argument must be a string or a real number, not 'NoneType'")
  | Some (VFloat f) => Ok f
  | Some (VInt z) =>
      let f := float_of_int z in
      if PrimFloat.is_infinity f
      then Raise (OverflowError "int too large to convert to float")
      else Ok f
  end.

Fixpoint np_row (xs : list pyobj) : exc (list float) :=
  match xs with
  | [] => Ok []
  | x :: xs' => f <- to_double x ;; fs <- np_row xs' ;; Ok (f :: fs)
  end.

(** ** The request, the table and the response *)

(** [request.form]: a multi-dictionary; [get] answers the first value stored
    under the key. *)
Definition Form : Type := list (string * string).

Definition form_get (form : Form) (k : string) : option string := assoc k form.

Definition form_get_or (form : Form) (k : string) (default : string) : string :=
  match assoc k form with
  | Some v => v
  | None => default
  end.

(** The eight numeric locals of [predict]. *)
Record inputs : Type := {
  pregnancies : pyobj;
  age : pyobj;
  glucose : pyobj;
  bloodpressure : pyobj;
  skinthickness : pyobj;
  insulin : pyobj;
  bmi : pyobj;
  dpf : pyobj
}.

(** A row of [patients] (the autoincremented id is its position). *)
Record row : Type := {
  row_name : string;
  row_inputs : inputs;
  row_probability : float;
  row_prediction : string
}.

Record context : Type := {
  ctx_name : string;
  ctx_result : string;
  ctx_probability : float;
  ctx_inputs : list (string * pyobj)
}.

Inductive response : Type :=
| Text (body : string) (status : Z)
| Template (file : string) (ctx : context).

Fixpoint join (sep : string) (l : list string) : string :=
  match l with
  | [] => ""
  | [x] => x
  | x :: l' => x ++ sep ++ join sep l'
  end.

Definition is_None (x : pyobj) : bool :=
  match x with None => true | Some _ => false end.

(** ** The [/predict] route *)

Section Route.

(** The built-ins [int(s)] and [float(s)] on a string ([None] where they
    raise), the built-in [round(x, n)], and the model loaded at start-up. *)
Variable py_int : string -> option Z.
Variable py_float : string -> option float.
Variable py_round : float -> Z -> float.
Variable model : Classifier.

Definition cast_int (s : string) : option pyval := option_map VInt (py_int s).
Definition cast_float (s : string) : option pyval :=
  option_map VFloat (py_float s).

(** Lines 78-87: the five required and the three optional fields. *)
Definition parse (form : Form) : exc inputs :=
  let age := to_number (form_get form "age") cast_int None in
  let glucose := to_number (form_get form "glucose") cast_int None in
  let bloodpressure :=
    to_number (form_get form "bloodpressure") cast_int None in
  let insulin := to_number (form_get form "insulin") cast_int None in
  let bmi := to_number (form_get form "bmi") cast_float None in
  d1 <- getitem DEFAULTS "pregnancies" ;;
  let pregnancies :=
    to_number (form_get form "pregnancies") cast_int (Some d1) in
  d2 <- getitem DEFAULTS "skinthickness" ;;
  let skinthickness :=
    to_number (form_get form "skinthickness") cast_int (Some d2) in
  d3 <- getitem DEFAULTS "dpf" ;;
  let dpf := to_number (form_get form "dpf") cast_float (Some d3) in
  Ok {| pregnancies := pregnancies; age := age; glucose := glucose;
        bloodpressure := bloodpressure; skinthickness := skinthickness;
        insulin := insulin; bmi := bmi; dpf := dpf |}.

(** Line 90: the dictionary [required], in insertion order. *)
Definition required (p : inputs) : list (string * pyobj) :=
  [ ("age", age p); ("glucose", glucose p);
    ("bloodpressure", bloodpressure p); ("insulin", insulin p);
    ("bmi", bmi p) ].

(** Line 91: [[k for k, v in required.items() if v is None]]. *)
Definition missing (p : inputs) : list string :=
  map fst (filter (fun kv => is_None (snd kv)) (required p)).

(** [x or DEFAULTS[k]]: the lookup runs only when [x] is false. *)
Definition or_default (x : pyobj) (k : string) : exc pyobj :=
  if truthy x then Ok x else d <- getitem DEFAULTS k ;; Ok (Some d).

(** Lines 96-103. *)
Definition clamp_all (p : inputs) : exc inputs :=
  x1 <- or_default (pregnancies p) "pregnancies" ;;
  pregnancies <- clamp "pregnancies" x1 ;;
  age <- clamp "age" (age p) ;;
  glucose <- clamp "glucose" (glucose p) ;;
  bloodpressure <- clamp "bloodpressure" (bloodpressure p) ;;
  x2 <- or_default (skinthickness p) "skinthickness" ;;
  skinthickness <- clamp "skinthickness" x2 ;;
  insulin <- clamp "insulin" (insulin p) ;;
  bmi <- clamp "bmi" (bmi p) ;;
  x3 <- or_default (dpf p) "dpf" ;;
  dpf <- clamp "dpf" x3 ;;
  Ok {| pregnancies := pregnancies; age := age; glucose := glucose;
        bloodpressure := bloodpressure; skinthickness := skinthickness;
        insulin := insulin; bmi := bmi; dpf := dpf |}.

(** Line 106: the single row of the array, in training order. *)
Definition feature_row (c : inputs) : list pyobj :=
  [ pregnancies c; glucose c; bloodpressure c; skinthickness c;
    insulin c; bmi c; dpf c; age c ].

Definition features (c : inputs) : exc (list (list float)) :=
  r <- np_row (feature_row c) ;; Ok [r].

(** Lines 110-112, the body of the [try]. *)
Definition try_body (X : list (list float)) : exc (float * Z) :=
  proba <- predict_proba model X ;;
  probs <- index proba 0 ;;
  prob_pos <- index probs 1 ;;
  classes <- predict_class model X ;;
  pred <- index classes 0 ;;
  Ok (prob_pos, pred).

(** Line 116. *)
Definition label (pred : Z) : string :=
  if pred =? 1 then "Diabetes Risk" else "No Risk".

Definition validation_message (missing : list string) : string :=
  "Missing or invalid fields: " ++ join ", " missing
    ++ ". Please provide valid numeric values.".

Definition shown_inputs (c : inputs) : list (string * pyobj) :=
  [ ("pregnancies", pregnancies c); ("age", age c); ("glucose", glucose c);
    ("bloodpressure", bloodpressure c);
    ("skinthickness", skinthickness c); ("insulin", insulin c);
    ("bmi", bmi c); ("dpf", dpf c) ].

(** Lines 78-103 as one step: the list [missing] when it is not empty,
    the clamped values otherwise. *)
Definition normalize (form : Form) : exc (list string + inputs) :=
  p <- parse form ;;
  match missing p with
  | [] => c <- clamp_all p ;; Ok (inr c)
  | m => Ok (inl m)
  end.

(** Lines 113-132: what follows the [try]. *)
Definition respond (name : string) (c : inputs) (r : exc (float * Z))
    (db : list row) : response * list row :=
  match r with
  | Raise e => (Text ("Model prediction error: " ++ str e) 500, db)
  | Ok (prob_pos, pred) =>
      let result := label pred in
      (Template "result.html"
         {| ctx_name := name; ctx_result := result;
            ctx_probability := py_round prob_pos 4;
            ctx_inputs := shown_inputs c |},
       (db ++ [ {| row_name := name; row_inputs := c;
                   row_probability := prob_pos;
                   row_prediction := result |} ])%list)
  end.

(** The view function.  The table is threaded through; an exception that
    leaves the function is the [Raise] of the first component. *)
Definition predict (form : Form) (db : list row) : exc response * list row :=
  let name := form_get_or form "name" "Unknown" in
  match normalize form with
  | Raise e => (Raise e, db)
  | Ok (inl m) => (Ok (Text (validation_message m) 400), db)
  | Ok (inr c) =>
      match features c with
      | Raise e => (Raise e, db)
      | Ok X =>
          let (page, db') := respond name c (try_body X) db in
          (Ok page, db')
      end
  end.

(** [records]: the rows, newest first. *)
Definition records (db : list row) : list row := rev db.

End Route.

(** ** The built-in conversions on ASCII text

    [int_literal] and [float_literal] follow CPython's [int(s)] and
    [float(s)] on ASCII strings: surrounding white space is dropped, a sign
    may lead, digits may be grouped by single underscores, and [float] also
    reads a fraction, an exponent, [inf], [infinity] and [nan].  The
    theorems below hold for any pair of conversions; these two instantiate
    them on concrete requests. *)

Definition is_space (c : ascii) : bool :=
  let n := nat_of_ascii c in
  ((9 <=? n) && (n <=? 13) || (28 <=? n) && (n <=? 32))%nat.

Fixpoint lstrip (l : list ascii) : list ascii :=
  match l with
  | c :: r => if is_space c then lstrip r else l
  | [] => []
  end.

Definition strip (l : list ascii) : list ascii :=
  rev (lstrip (rev (lstrip l))).

Definition digit (c : ascii) : option Z :=
  let n := Z.of_nat (nat_of_ascii c) in
  if (48 <=? n) && (n <=? 57) then Some (n - 48) else None.

(** A run of digits; an underscore is accepted only between two digits. *)
Fixpoint digits (prev : bool) (l : list ascii) : list Z * list ascii :=
  match l with
  | [] => ([], [])
  | c :: r =>
      match digit c with
      | Some d => let (ds, r') := digits true r in (d :: ds, r')
      | None =>
          if prev && Ascii.eqb c "_"
          then match r with
               | c2 :: _ =>
                   match digit c2 with
                   | Some _ => digits false r
                   | None => ([], l)
                   end
               | [] => ([], l)
               end
          else ([], l)
      end
  end.

Definition number_of (ds : list Z) : Z :=
  fold_left (fun a d => 10 * a + d) ds 0.

Definition sign (l : list ascii) : bool * list ascii :=
  match l with
  | c :: r =>
      if Ascii.eqb c "-" then (true, r)
      else if Ascii.eqb c "+" then (false, r)
      else (false, l)
  | [] => (false, [])
  end.

(** [int(s)], with the interpreter's limit of 4300 digits. *)
Definition int_literal (s : string) : option Z :=
  let (neg, l) := sign (strip (list_ascii_of_string s)) in
  match digits false l with
  | (d :: ds, []) =>
      if (4300 <? List.length (d :: ds))%nat then None
      else let n := number_of (d :: ds) in Some (if neg then - n else n)
  | _ => None
  end.

Definition lower (c : ascii) : ascii :=
  let n := nat_of_ascii c in
  if ((65 <=? n) && (n <=? 90))%nat then ascii_of_nat (n + 32) else c.

(** The binary64 number nearest to [m * 10 ^ e], ties to even. *)
Definition decimal (neg : bool) (m e : Z) : float :=
  match m with
  | Zpos p =>
      let x :=
        if 0 <=? e then binary_normalize prec emax (m * 10 ^ e) 0 false
        else SFdiv prec emax (S754_finite false p 0)
               (S754_finite false (Z.to_pos (10 ^ (- e))) 0) in
      SF2Prim (if neg then SFopp x else x)
  | _ => if neg then neg_zero else zero
  end.

Definition exponent (l : list ascii) : option Z :=
  match l with
  | [] => Some 0
  | c :: r =>
      if Ascii.eqb (lower c) "e"
      then let (neg, r') := sign r in
           match digits false r' with
           | (d :: ds, []) =>
               let n := number_of (d :: ds) in Some (if neg then - n else n)
           | _ => None
           end
      else None
  end.

(** [float(s)] *)
Definition float_literal (s : string) : option float :=
  let (neg, l) := sign (strip (list_ascii_of_string s)) in
  let word := string_of_list_ascii (map lower l) in
  if String.eqb word "inf" || String.eqb word "infinity"
  then Some (if neg then neg_infinity else infinity)
  else if String.eqb word "nan" then Some nan
  else
    let (ip, l1) := digits false l in
    let (fp, l2) :=
      match l1 with
      | c :: r => if Ascii.eqb c "." then digits false r else ([], l1)
      | [] => ([], l1)
      end in
    match (ip ++ fp)%list with
    | [] => None
    | ds =>
        match exponent l2 with
        | Some x =>
            Some (decimal neg (number_of ds) (x - Z.of_nat (List.length fp)))
        | None => None
        end
    end.


(** [round(x, n)] for [n >= 0]: the decimal nearest to the exact value of
    [x], ties to even, read back as a float. *)
Definition round_half_even (a b : Z) : Z :=
  let q := a / b in
  match 2 * (a mod b) ?= b with
  | Lt => q
  | Gt => q + 1
  | Eq => if Z.even q then q else q + 1
  end.

Definition round_literal (x : float) (n : Z) : float :=
  match Prim2SF x with
  | S754_finite s m e =>
      let k :=
        if 0 <=? e then Zpos m * 2 ^ e * 10 ^ n
        else round_half_even (Zpos m * 10 ^ n) (2 ^ (- e)) in
      decimal s k (- n)
  | _ => x
  end.

(** ** What the specification calls things *)

(** A submitted value is usable under a conversion when it is present, not
    empty, and the conversion accepts it. *)
Definition usable {A : Type} (conv : string -> option A) (v : option string)
    : bool :=
  match v with
  | None => false
  | Some s =>
      negb (String.eqb s "")
      && match conv s with Some _ => true | None => false end
  end.

(** Absent, empty, or rejected by the conversion. *)
Definition unusable {A : Type} (conv : string -> option A)
    (v : option string) : Prop :=
  v = None \/ v = Some "" \/ (exists s, v = Some s /\ conv s = None).

(** The required fields that are absent, empty or rejected by their
    conversion, in the order age, glucose, bloodpressure, insulin, bmi. *)
Definition invalid_required (py_int : string -> option Z)
    (py_float : string -> option float) (form : Form) : list string :=
  ((if usable py_int (form_get form "age") then [] else ["age"])
   ++ (if usable py_int (form_get form "glucose") then [] else ["glucose"])
   ++ (if usable py_int (form_get form "bloodpressure") then []
       else ["bloodpressure"])
   ++ (if usable py_int (form_get form "insulin") then [] else ["insulin"])
   ++ (if usable py_float (form_get form "bmi") then [] else ["bmi"]))%list.

(** [lo <= x <= hi] for the range declared under [name]. *)
Definition within (name : string) (x : pyobj) : bool :=
  match x, assoc name RANGES with
  | Some v, Some (lo, hi) => py_le lo v && py_le v hi
  | _, _ => false
  end.

(** The ways the two classifier calls of the [try] can go wrong. *)
Definition classifier_fails (model : Classifier) (X : list (list float))
    : Prop :=
  (exists e, predict_proba model X = Raise e)
  \/ (exists proba, predict_proba model X = Ok proba
        /\ (List.length (nth 0 proba []) < 2)%nat)
  \/ (exists e, predict_class model X = Raise e)
  \/ predict_class model X = Ok [].

(** ** Sample classifiers and requests *)

Definition steady (p0 p1 : float) (cls : Z) : Classifier :=
  {| predict_proba := fun X => Ok (map (fun _ => [p0; p1]) X);
     predict_class := fun X => Ok (map (fun _ => cls) X) |}.

Definition broken (msg : string) : Classifier :=
  {| predict_proba := fun _ => Raise (ModelError msg);
     predict_class := fun _ => Raise (ModelError msg) |}.

Definition one_column (p : float) (cls : Z) : Classifier :=
  {| predict_proba := fun X => Ok (map (fun _ => [p]) X);
     predict_class := fun X => Ok (map (fun _ => cls) X) |}.

Definition sample_form : Form :=
  [ ("age", "45"); ("glucose", "180"); ("bloodpressure", "90");
    ("insulin", "120"); ("bmi", "32.5") ].

Definition py_predict
    : Classifier -> Form -> list row -> exc response * list row :=
  predict int_literal float_literal round_literal.

Definition py_normalize : Form -> exc (list string + inputs) :=
  normalize int_literal float_literal.

(** [x or d] and the arithmetic of [clamp], as total functions. *)
Definition defaulted (x : pyobj) (d : pyval) : pyobj :=
  if truthy x then x else Some d.

Definition clamped (lo hi : pyval) (x : pyobj) : pyobj :=
  option_map (fun v => py_max lo (py_min hi v)) x.

Definition is_int (x : pyobj) : bool :=
  match x with Some (VInt _) => true | _ => false end.

Definition is_float (x : pyobj) : bool :=
  match x with Some (VFloat _) => true | _ => false end.

(** The integers [0 .. n]. *)
Definition upto (n : nat) : list Z := map Z.of_nat (seq 0 (S n)).

(** The values [parse] and [clamp_all] arrive at, written without the
    exception plumbing ([parse_total] and [clamp_all_total] below). *)
Definition parsed (py_int : string -> option Z)
    (py_float : string -> option float) (form : Form) : inputs :=
  {| pregnancies :=
       to_number (form_get form "pregnancies") (cast_int py_int)
         (Some (VInt 0));
     age := to_number (form_get form "age") (cast_int py_int) None;
     glucose := to_number (form_get form "glucose") (cast_int py_int) None;
     bloodpressure :=
       to_number (form_get form "bloodpressure") (cast_int py_int) None;
     skinthickness :=
       to_number (form_get form "skinthickness") (cast_int py_int)
         (Some (VInt 10));
     insulin := to_number (form_get form "insulin") (cast_int py_int) None;
     bmi := to_number (form_get form "bmi") (cast_float py_float) None;
     dpf :=
       to_number (form_get form "dpf") (cast_float py_float)
         (Some (VFloat 0.2%float)) |}.

Definition settled (p : inputs) : inputs :=
  {| pregnancies :=
       clamped (VInt 0) (VInt 20) (defaulted (pregnancies p) (VInt 0));
     age := clamped (VInt 1) (VInt 120) (age p);
     glucose := clamped (VInt 20) (VInt 500) (glucose p);
     bloodpressure := clamped (VInt 20) (VInt 200) (bloodpressure p);
     skinthickness :=
       clamped (VInt 5) (VInt 100) (defaulted (skinthickness p) (VInt 10));
     insulin := clamped (VInt 0) (VInt 900) (insulin p);
     bmi := clamped (VFloat 10.0%float) (VFloat 70.0%float) (bmi p);
     dpf :=
       clamped (VFloat 0.0%float) (VFloat 3.0%float)
         (defaulted (dpf p) (VFloat 0.2%float)) |}.

(** The order the classifier was trained with, and the value a set of
    inputs holds under a field name. *)
Definition feature_order : list string :=
  [ "pregnancies"; "glucose"; "bloodpressure"; "skinthickness"; "insulin";
    "bmi"; "dpf"; "age" ].

Definition field_of (c : inputs) (k : string) : pyobj :=
  match assoc k (shown_inputs c) with
  | Some v => v
  | None => None
  end.

(** Entry by entry, a row of floats lies within the ranges of [names]. *)
Fixpoint all_within (names : list string) (r : list float) : bool :=
  match names, r with
  | [], [] => true
  | k :: names', f :: r' => within k (Some (VFloat f)) && all_within names' r'
  | _, _ => false
  end.

(** The clamped inputs are numbers of the declared kind inside the declared
    range. *)
Definition int_between (lo hi : Z) (x : pyobj) : Prop :=
  exists z, x = Some (VInt z) /\ lo <= z <= hi.

Definition float_between (lo hi : float) (x : pyobj) : Prop :=
  exists f, x = Some (VFloat f)
            /\ PrimFloat.leb lo f = true /\ PrimFloat.leb f hi = true.

Definition sound (c : inputs) : Prop :=
  int_between 0 20 (pregnancies c) /\ int_between 1 120 (age c)
  /\ int_between 20 500 (glucose c) /\ int_between 20 200 (bloodpressure c)
  /\ int_between 5 100 (skinthickness c) /\ int_between 0 900 (insulin c)
  /\ float_between 10.0 70.0 (bmi c) /\ float_between 0.0 3.0 (dpf c).

(** What the sample request normalises to. *)
Definition sample_inputs : inputs :=
  {| pregnancies := Some (VInt 0); age := Some (VInt 45);
     glucose := Some (VInt 180); bloodpressure := Some (VInt 90);
     skinthickness := Some (VInt 10); insulin := Some (VInt 120);
     bmi := Some (VFloat 32.5%float); dpf := Some (VFloat 0.2%float) |}.

(** The sample request with one more entry in front, where [get] finds it
    first, and the value a request normalises a field to under the
    conversions above. *)
Definition submit (k v : string) : Form := (k, v) :: sample_form.

Definition normalized (k : string) (form : Form) : pyobj :=
  match py_normalize form with
  | Ok (inr c) => field_of c k
  | _ => None
  end.

(** ** The table as the [records] route reads it, and a run of requests *)

(** The rows with their autoincremented ids: no row is ever deleted, so the
    ids are 1, 2, ... in the order of insertion. *)
Definition with_ids (db : list row) : list (Z * row) :=
  combine (map Z.of_nat (seq 1 (List.length db))) db.

(** [SELECT * FROM patients ORDER BY id DESC], the rows [records] shows. *)
Definition select_desc (db : list row) : list (Z * row) := rev (with_ids db).

Section Service.

Variable py_int : string -> option Z.
Variable py_float : string -> option float.
Variable py_round : float -> Z -> float.
Variable model : Classifier.

(** Requests handled one after the other on the same table: the answers
    in order, and the table at the end. *)
Fixpoint run (reqs : list Form) (db : list row)
    : list (exc response) * list row :=
  match reqs with
  | [] => ([], db)
  | form :: reqs' =>
      let (a, db1) := predict py_int py_float py_round model form db in
      let (answers, db2) := run reqs' db1 in
      (a :: answers, db2)
  end.

End Service.

Definition is_page (a : exc response) : bool :=
  match a with
  | Ok (Template _ _) => true
  | _ => false
  end.

(** A stored row with inputs inside their ranges and one of the two
    labels. *)
Definition row_ok (r : row) : Prop :=
  sound (row_inputs r)
  /\ (row_prediction r = "Diabetes Risk" \/ row_prediction r = "No Risk").

(** The float [f] has exactly the value of the Python number [x]. *)
Definition represents (x : pyobj) (f : float) : Prop :=
  match x with
  | Some (VInt z) => float_cmp_int f z = Some Eq
  | Some (VFloat g) => f = g
  | None => False
  end.

(** The keys of [required], in the order of line 90, and every key the
    view reads from the form. *)
Definition required_names : list string :=
  [ "age"; "glucose"; "bloodpressure"; "insulin"; "bmi" ].

Definition form_keys : list string :=
  [ "name"; "age"; "glucose"; "bloodpressure"; "insulin"; "bmi";
    "pregnancies"; "skinthickness"; "dpf" ].

(** * Properties *)

(** ** Floats and bounded integers *)

Lemma ltb_leb (x y : float) :
  PrimFloat.ltb x y = true -> PrimFloat.leb x y = true.
Proof.
  rewrite ltb_spec, leb_spec. unfold SFltb, SFleb.
  destruct (SFcompare (Prim2SF x) (Prim2SF y)) as [[ | | ] | ]; congruence.
Qed.

Lemma upto_spec (n : nat) (z : Z) : 0 <= z <= Z.of_nat n -> In z (upto n).
Proof.
  intros H. unfold upto. apply in_map_iff. exists (Z.to_nat z). split.
  - lia.
  - apply in_seq. lia.
Qed.

Lemma bounded_check (P : Z -> bool) (n : nat) :
  forallb P (upto n) = true -> forall z, 0 <= z <= Z.of_nat n -> P z = true.
Proof.
  intros H z Hz. rewrite forallb_forall in H. apply H, upto_spec, Hz.
Qed.

(** Every int that a range admits converts to a finite float. *)
Lemma small_int_finite (z : Z) :
  0 <= z <= 900 -> PrimFloat.is_infinity (float_of_int z) = false.
Proof.
  intros H.
  apply (bounded_check
           (fun z => negb (PrimFloat.is_infinity (float_of_int z))) 900%nat)
    in H.
  - now apply negb_true_iff in H.
  - vm_compute. reflexivity.
Qed.

(** ** The steps of the route *)

Lemma clamp_known (name : string) (lo hi : pyval) (x : pyobj) :
  assoc name RANGES = Some (lo, hi) -> clamp name x = Ok (clamped lo hi x).
Proof.
  intros H. destruct x as [v | ]; [ | reflexivity ].
  unfold clamp, getitem. rewrite H. reflexivity.
Qed.

Lemma or_default_known (x : pyobj) (k : string) (d : pyval) :
  assoc k DEFAULTS = Some d -> or_default x k = Ok (defaulted x d).
Proof.
  intros H. unfold or_default, defaulted, getitem.
  destruct (truthy x); [ reflexivity | ]. rewrite H. reflexivity.
Qed.

Lemma clamp_all_total (p : inputs) : clamp_all p = Ok (settled p).
Proof.
  unfold clamp_all.
  rewrite (or_default_known _ "pregnancies" (VInt 0)) by reflexivity.
  rewrite (or_default_known _ "skinthickness" (VInt 10)) by reflexivity.
  rewrite (or_default_known _ "dpf" (VFloat 0.2%float)) by reflexivity.
  cbn [bind].
  rewrite (clamp_known "pregnancies" (VInt 0) (VInt 20)) by reflexivity.
  rewrite (clamp_known "age" (VInt 1) (VInt 120)) by reflexivity.
  rewrite (clamp_known "glucose" (VInt 20) (VInt 500)) by reflexivity.
  rewrite (clamp_known "bloodpressure" (VInt 20) (VInt 200)) by reflexivity.
  rewrite (clamp_known "skinthickness" (VInt 5) (VInt 100)) by reflexivity.
  rewrite (clamp_known "insulin" (VInt 0) (VInt 900)) by reflexivity.
  rewrite (clamp_known "bmi" (VFloat 10.0%float) (VFloat 70.0%float))
    by reflexivity.
  rewrite (clamp_known "dpf" (VFloat 0.0%float) (VFloat 3.0%float))
    by reflexivity.
  reflexivity.
Qed.

Lemma to_number_required {A : Type} (conv : string -> option A)
    (inj : A -> pyval) (v : option string) :
  is_None (to_number v (fun s => option_map inj (conv s)) None)
  = negb (usable conv v).
Proof.
  destruct v as [s | ]; [ | reflexivity ]. cbn.
  destruct (String.eqb s ""); [ reflexivity | ].
  destruct (conv s); reflexivity.
Qed.

Lemma to_number_int (py_int : string -> option Z) (v : option string) (d : Z) :
  is_int (to_number v (cast_int py_int) (Some (VInt d))) = true.
Proof.
  destruct v as [s | ]; [ | reflexivity ]. cbn. unfold cast_int.
  destruct (String.eqb s ""); [ reflexivity | ].
  destruct (py_int s); reflexivity.
Qed.

Lemma to_number_float (py_float : string -> option float) (v : option string)
    (d : float) :
  is_float (to_number v (cast_float py_float) (Some (VFloat d))) = true.
Proof.
  destruct v as [s | ]; [ | reflexivity ]. cbn. unfold cast_float.
  destruct (String.eqb s ""); [ reflexivity | ].
  destruct (py_float s); reflexivity.
Qed.

Lemma to_number_usable_int (py_int : string -> option Z) (v : option string) :
  usable py_int v = true ->
  is_int (to_number v (cast_int py_int) None) = true.
Proof.
  destruct v as [s | ]; [ | discriminate ]. cbn. unfold cast_int.
  destruct (String.eqb s ""); [ discriminate | ].
  destruct (py_int s); [ reflexivity | discriminate ].
Qed.

Lemma to_number_usable_float (py_float : string -> option float)
    (v : option string) :
  usable py_float v = true ->
  is_float (to_number v (cast_float py_float) None) = true.
Proof.
  destruct v as [s | ]; [ | discriminate ]. cbn. unfold cast_float.
  destruct (String.eqb s ""); [ discriminate | ].
  destruct (py_float s); [ reflexivity | discriminate ].
Qed.

(** An optional field that is absent, empty or rejected parses to its
    default. *)
Lemma to_number_unusable {A : Type} (conv : string -> option A)
    (inj : A -> pyval) (v : option string) (d : pyobj) :
  usable conv v = false ->
  to_number v (fun s => option_map inj (conv s)) d = d.
Proof.
  destruct v as [s | ]; [ | reflexivity ]. cbn.
  destruct (String.eqb s ""); [ reflexivity | ].
  destruct (conv s); [ discriminate | reflexivity ].
Qed.

Section Pipeline.

Variable py_int : string -> option Z.
Variable py_float : string -> option float.
Variable py_round : float -> Z -> float.
Variable model : Classifier.

Local Abbreviation parse' := (parse py_int py_float).
Local Abbreviation parsed' := (parsed py_int py_float).
Local Abbreviation normalize' := (normalize py_int py_float).
Local Abbreviation invalid := (invalid_required py_int py_float).
Local Abbreviation predict' := (predict py_int py_float py_round model).
Local Abbreviation try_body' := (try_body model).
Local Abbreviation respond' := (respond py_round).

Lemma parse_total (form : Form) : parse' form = Ok (parsed' form).
Proof. reflexivity. Qed.

Lemma missing_parsed (form : Form) : missing (parsed' form) = invalid form.
Proof.
  unfold missing, required, invalid_required, parsed.
  cbn [age glucose bloodpressure insulin bmi filter snd fst map].
  unfold cast_int, cast_float.
  rewrite !to_number_required.
  destruct (usable py_int (form_get form "age")),
           (usable py_int (form_get form "glucose")),
           (usable py_int (form_get form "bloodpressure")),
           (usable py_int (form_get form "insulin")),
           (usable py_float (form_get form "bmi")); reflexivity.
Qed.

(** The two outcomes of lines 78-103. *)
Lemma normalize_total (form : Form) :
  normalize' form
  = match invalid form with
    | [] => Ok (inr (settled (parsed' form)))
    | m => Ok (inl m)
    end.
Proof.
  unfold normalize. rewrite parse_total. cbn [bind].
  rewrite missing_parsed.
  destruct (invalid form); [ | reflexivity ].
  rewrite clamp_all_total. reflexivity.
Qed.

End Pipeline.

(** ** Clamping *)

Lemma clamped_int_value (lo hi v : Z) :
  clamped (VInt lo) (VInt hi) (Some (VInt v))
  = Some (VInt (Z.max lo (Z.min hi v))).
Proof.
  unfold clamped, option_map, py_max, py_gt, py_min, py_lt.
  destruct (Z.ltb_spec v hi).
  - destruct (Z.ltb_spec lo v); do 2 f_equal; lia.
  - destruct (Z.ltb_spec lo hi); do 2 f_equal; lia.
Qed.

Lemma clamped_int_between (lo hi : Z) (x : pyobj) :
  lo <= hi -> is_int x = true ->
  int_between lo hi (clamped (VInt lo) (VInt hi) x).
Proof.
  intros Hle Hx. destruct x as [[v | f] | ]; try discriminate.
  exists (Z.max lo (Z.min hi v)). split; [ apply clamped_int_value | lia ].
Qed.

Lemma clamped_float_between (lo hi : float) (x : pyobj) :
  PrimFloat.ltb lo hi = true -> PrimFloat.leb lo lo = true ->
  PrimFloat.leb hi hi = true -> is_float x = true ->
  float_between lo hi (clamped (VFloat lo) (VFloat hi) x).
Proof.
  intros Hlt Hlo Hhi Hx. destruct x as [[v | f] | ]; try discriminate.
  unfold float_between, clamped, option_map, py_max, py_gt, py_min, py_lt.
  destruct (PrimFloat.ltb f hi) eqn:E1.
  - destruct (PrimFloat.ltb lo f) eqn:E2.
    + exists f. auto using ltb_leb.
    + exists lo. auto using ltb_leb.
  - rewrite Hlt. exists hi. auto using ltb_leb.
Qed.

Lemma defaulted_int (x : pyobj) (d : Z) :
  is_int x = true -> is_int (defaulted x (VInt d)) = true.
Proof. intros H. unfold defaulted. destruct (truthy x); auto. Qed.

Lemma defaulted_float (x : pyobj) (d : float) :
  is_float x = true -> is_float (defaulted x (VFloat d)) = true.
Proof. intros H. unfold defaulted. destruct (truthy x); auto. Qed.

(** A value that [x or d] lets through is never false. *)
Lemma defaulted_truthy (x : pyobj) (d : pyval) :
  truthy (Some d) = true -> truthy (defaulted x d) = true.
Proof. intros H. unfold defaulted. destruct (truthy x) eqn:E; auto. Qed.

Lemma usable_all (py_int : string -> option Z)
    (py_float : string -> option float) (form : Form) :
  invalid_required py_int py_float form = [] ->
  usable py_int (form_get form "age") = true
  /\ usable py_int (form_get form "glucose") = true
  /\ usable py_int (form_get form "bloodpressure") = true
  /\ usable py_int (form_get form "insulin") = true
  /\ usable py_float (form_get form "bmi") = true.
Proof.
  unfold invalid_required.
  destruct (usable py_int (form_get form "age")),
           (usable py_int (form_get form "glucose")),
           (usable py_int (form_get form "bloodpressure")),
           (usable py_int (form_get form "insulin")),
           (usable py_float (form_get form "bmi")); cbn; intros H;
    try discriminate; auto.
Qed.

Lemma settled_sound (py_int : string -> option Z)
    (py_float : string -> option float) (form : Form) :
  invalid_required py_int py_float form = [] ->
  sound (settled (parsed py_int py_float form)).
Proof.
  intros H. apply usable_all in H. destruct H as (Ha & Hg & Hb & Hi & Hm).
  unfold sound, settled, parsed; cbn [pregnancies age glucose bloodpressure
    skinthickness insulin bmi dpf].
  repeat split.
  - apply clamped_int_between; [ lia | apply defaulted_int, to_number_int ].
  - apply clamped_int_between; [ lia | now apply to_number_usable_int ].
  - apply clamped_int_between; [ lia | now apply to_number_usable_int ].
  - apply clamped_int_between; [ lia | now apply to_number_usable_int ].
  - apply clamped_int_between; [ lia | apply defaulted_int, to_number_int ].
  - apply clamped_int_between; [ lia | now apply to_number_usable_int ].
  - apply clamped_float_between; try reflexivity.
    now apply to_number_usable_float.
  - apply clamped_float_between; try reflexivity.
    apply defaulted_float, to_number_float.
Qed.

(** ** The feature array *)

Lemma to_double_small (z : Z) :
  0 <= z <= 900 -> to_double (Some (VInt z)) = Ok (float_of_int z).
Proof. intros H. unfold to_double. now rewrite small_int_finite. Qed.

(** Converting an int of a declared range to a float keeps it inside the
    range (checked on every int up to the largest bound, 900). *)
Lemma int_ranges_checked :
  forallb
    (fun entry : string * (pyval * pyval) =>
       match entry with
       | (name, (VInt l, VInt h)) =>
           forallb
             (fun z => implb ((l <=? z) && (z <=? h))
                         (within name (Some (VFloat (float_of_int z)))))
             (upto 900)
       | _ => true
       end) RANGES = true.
Proof. vm_compute. reflexivity. Qed.

Lemma int_feature_within (name : string) (l h z : Z) :
  In (name, (VInt l, VInt h)) RANGES -> 0 <= l -> h <= 900 -> l <= z <= h ->
  within name (Some (VFloat (float_of_int z))) = true.
Proof.
  intros Hin Hl Hh Hz.
  pose proof int_ranges_checked as H. rewrite forallb_forall in H.
  specialize (H _ Hin). cbn beta iota in H.
  apply (bounded_check _ 900%nat) with (z := z) in H; [ | lia ].
  replace ((l <=? z) && (z <=? h)) with true in H; [ exact H | ].
  symmetry. apply andb_true_iff. split; apply Z.leb_le; lia.
Qed.

Lemma int_between_within (name : string) (l h : Z) (x : pyobj) :
  assoc name RANGES = Some (VInt l, VInt h) -> int_between l h x ->
  within name x = true.
Proof.
  intros Hr (z & -> & Hz). unfold within. rewrite Hr. cbn.
  apply andb_true_iff. split; apply Z.leb_le; lia.
Qed.

Lemma float_between_within (name : string) (l h : float) (x : pyobj) :
  assoc name RANGES = Some (VFloat l, VFloat h) -> float_between l h x ->
  within name x = true.
Proof.
  intros Hr (f & -> & H1 & H2). unfold within. rewrite Hr. cbn.
  now rewrite H1, H2.
Qed.

(** Sound inputs lie within their ranges, as Python objects ... *)
Lemma sound_within (c : inputs) :
  sound c ->
  forallb (fun kv => within (fst kv) (snd kv)) (shown_inputs c) = true.
Proof.
  intros (H1 & H2 & H3 & H4 & H5 & H6 & H7 & H8).
  unfold shown_inputs. cbn [forallb fst snd].
  rewrite (int_between_within "pregnancies" 0 20)
    by (reflexivity || assumption).
  rewrite (int_between_within "age" 1 120) by (reflexivity || assumption).
  rewrite (int_between_within "glucose" 20 500) by (reflexivity || assumption).
  rewrite (int_between_within "bloodpressure" 20 200)
    by (reflexivity || assumption).
  rewrite (int_between_within "skinthickness" 5 100)
    by (reflexivity || assumption).
  rewrite (int_between_within "insulin" 0 900) by (reflexivity || assumption).
  rewrite (float_between_within "bmi" 10.0 70.0) by (reflexivity || assumption).
  rewrite (float_between_within "dpf" 0.0 3.0) by (reflexivity || assumption).
  reflexivity.
Qed.

(** ... and as the float row built from them, which always exists. *)
Lemma sound_features (c : inputs) :
  sound c ->
  exists r,
    features c = Ok [r]
    /\ np_row (map (field_of c) feature_order) = Ok r
    /\ List.length r = 8%nat
    /\ all_within feature_order r = true.
Proof.
  intros ((z1 & E1 & B1) & (z2 & E2 & B2) & (z3 & E3 & B3) & (z4 & E4 & B4)
          & (z5 & E5 & B5) & (z6 & E6 & B6) & (f7 & E7 & L7 & U7)
          & (f8 & E8 & L8 & U8)).
  exists [ float_of_int z1; float_of_int z3; float_of_int z4; float_of_int z5;
           float_of_int z6; f7; f8; float_of_int z2 ].
  assert (Hrow : np_row (feature_row c)
                 = Ok [ float_of_int z1; float_of_int z3; float_of_int z4;
                        float_of_int z5; float_of_int z6; f7; f8;
                        float_of_int z2 ]).
  { unfold feature_row. rewrite E1, E2, E3, E4, E5, E6, E7, E8.
    cbn [np_row]. rewrite !to_double_small by lia. reflexivity. }
  split; [ | split; [ | split ] ].
  - unfold features. rewrite Hrow. reflexivity.
  - exact Hrow.
  - reflexivity.
  - cbn [all_within feature_order].
    rewrite (int_feature_within "pregnancies" 0 20) by (cbn; tauto || lia).
    rewrite (int_feature_within "glucose" 20 500) by (cbn; tauto || lia).
    rewrite (int_feature_within "bloodpressure" 20 200) by (cbn; tauto || lia).
    rewrite (int_feature_within "skinthickness" 5 100) by (cbn; tauto || lia).
    rewrite (int_feature_within "insulin" 0 900) by (cbn; tauto || lia).
    rewrite (int_feature_within "age" 1 120) by (cbn; tauto || lia).
    cbn. now rewrite L7, U7, L8, U8.
Qed.

(** ** The view as a whole *)

Lemma label_risk (k : Z) : label k = "Diabetes Risk" <-> k = 1.
Proof.
  unfold label. destruct (Z.eqb_spec k 1); split; intros H;
    congruence || discriminate.
Qed.

Lemma label_no_risk (k : Z) : k <> 1 -> label k = "No Risk".
Proof. intros H. unfold label. now destruct (Z.eqb_spec k 1). Qed.

Lemma index_nth {A : Type} (a : list A) (i : nat) (x : A) :
  nth_error a i = Some x -> index a i = Ok x.
Proof. intros H. unfold index. now rewrite H. Qed.

(** A multi-dictionary without repeated keys is read the same way in any
    order of its entries. *)
Lemma assoc_permutation {V : Type} (l l' : list (string * V)) :
  Permutation l l' -> NoDup (map fst l) ->
  forall k, assoc k l = assoc k l'.
Proof.
  induction 1
    as [ | [a v] l l' HP IH | [a v] [b w] l | l l' l'' HP1 IH1 HP2 IH2 ];
    intros Hnd k.
  - reflexivity.
  - cbn in *. inversion Hnd; subst. rewrite IH by assumption. reflexivity.
  - cbn in *. inversion Hnd as [ | ? ? Hin _ ]; subst.
    destruct (String.eqb_spec a k) as [-> | Ha];
      destruct (String.eqb_spec b k) as [-> | Hb]; try reflexivity.
    exfalso. apply Hin. now left.
  - rewrite IH1 by assumption. apply IH2.
    apply (Permutation_NoDup (l := map fst l)); [ | assumption ].
    now apply Permutation_map.
Qed.

Lemma usable_false_iff {A : Type} (conv : string -> option A)
    (v : option string) :
  usable conv v = false <-> unusable conv v.
Proof.
  unfold unusable. destruct v as [s | ]; cbn; [ | tauto ].
  destruct (String.eqb_spec s "") as [-> | Hs]; cbn; [ tauto | ].
  destruct (conv s) eqn:E; split; intros H; try discriminate; eauto.
  destruct H as [H | [H | (s' & H & H')]]; congruence.
Qed.

Section Requests.

Variable py_int : string -> option Z.
Variable py_float : string -> option float.
Variable py_round : float -> Z -> float.
Variable model : Classifier.

Local Abbreviation parsed' := (parsed py_int py_float).
Local Abbreviation normalize' := (normalize py_int py_float).
Local Abbreviation invalid := (invalid_required py_int py_float).
Local Abbreviation predict' := (predict py_int py_float py_round model).
Local Abbreviation try_body' := (try_body model).
Local Abbreviation respond' := (respond py_round).

Lemma normalize_inr (form : Form) (c : inputs) :
  normalize' form = Ok (inr c) ->
  invalid form = [] /\ c = settled (parsed' form).
Proof.
  rewrite normalize_total. destruct (invalid form); intros H.
  - split; congruence.
  - discriminate.
Qed.

Lemma normalize_sound (form : Form) (c : inputs) :
  normalize' form = Ok (inr c) -> sound c.
Proof.
  intros H. apply normalize_inr in H. destruct H as [H ->].
  now apply settled_sound.
Qed.

Lemma predict_invalid (form : Form) (db : list row) (m : list string) :
  normalize' form = Ok (inl m) ->
  predict' form db = (Ok (Text (validation_message m) 400), db).
Proof. intros H. unfold predict. rewrite H. reflexivity. Qed.

Lemma predict_valid (form : Form) (db : list row) (c : inputs)
    (X : list (list float)) :
  normalize' form = Ok (inr c) -> features c = Ok X ->
  predict' form db
  = (Ok (fst (respond' (form_get_or form "name" "Unknown") c (try_body' X) db)),
     snd (respond' (form_get_or form "name" "Unknown") c (try_body' X) db)).
Proof.
  intros H1 H2. unfold predict. rewrite H1, H2.
  destruct (respond' _ c (try_body' X) db). reflexivity.
Qed.

(** C2: when some required field (age, glucose, bloodpressure, insulin,
    bmi) is absent, empty or not a number its conversion accepts ([int] for
    the first four, [float] for bmi), normalisation fails and the request is
    answered 400 with the list of exactly those fields, all of them, each
    once; when there is none, normalisation succeeds. *)
Theorem C2_every_invalid_required_field_is_reported (form : Form)
    (db : list row) :
  match invalid form with
  | [] => exists c, normalize' form = Ok (inr c)
  | m =>
      normalize' form = Ok (inl m)
      /\ predict' form db = (Ok (Text (validation_message m) 400), db)
  end
  /\ (forall k,
        In k (invalid form) <->
        (In k ["age"; "glucose"; "bloodpressure"; "insulin"]
         /\ unusable py_int (form_get form k))
        \/ (k = "bmi" /\ unusable py_float (form_get form k)))
  /\ NoDup (invalid form).
Proof.
  split; [ | split ].
  - pose proof (normalize_total py_int py_float form) as H.
    destruct (invalid form) as [ | k m ].
    + eauto.
    + split; [ exact H | now apply predict_invalid ].
  - intros k. rewrite <- !usable_false_iff. unfold invalid_required.
    destruct (usable py_int (form_get form "age")) eqn:Ea,
             (usable py_int (form_get form "glucose")) eqn:Eg,
             (usable py_int (form_get form "bloodpressure")) eqn:Eb,
             (usable py_int (form_get form "insulin")) eqn:Ei,
             (usable py_float (form_get form "bmi")) eqn:Em;
      cbn [app In]; split;
      try (intros H; repeat (destruct H as [<- | H]; [ cbn; tauto | ]);
           now destruct H);
      intros [[H U] | [-> U]];
      repeat (destruct H as [<- | H]; [ try congruence; tauto | ]);
      try (now destruct H); try congruence; tauto.
  - unfold invalid_required.
    destruct (usable py_int (form_get form "age")),
             (usable py_int (form_get form "glucose")),
             (usable py_int (form_get form "bloodpressure")),
             (usable py_int (form_get form "insulin")),
             (usable py_float (form_get form "bmi")); cbn [app];
      repeat constructor; cbn; intuition discriminate.
Qed.

(** C3: once normalisation has produced the array [X], if [predict_proba]
    answers [proba] whose first row holds [p] at index 1 and [predict]
    answers [classes] whose first entry is [k], the request is answered with
    the result page and one row is stored: its probability is [p] itself,
    its label is "Diabetes Risk" exactly when [k = 1] and "No Risk" for any
    other class; the page shows the same label and [round(p, 4)]. *)
Theorem C3_verdict_follows_classifier (form : Form) (db : list row)
    (c : inputs) (X proba : list (list float)) (probs : list float)
    (classes : list Z) (p : float) (k : Z) :
  normalize' form = Ok (inr c) -> features c = Ok X ->
  predict_proba model X = Ok proba -> nth_error proba 0 = Some probs ->
  nth_error probs 1 = Some p ->
  predict_class model X = Ok classes -> nth_error classes 0 = Some k ->
  exists page r,
    predict' form db = (Ok (Template "result.html" page), (db ++ [r])%list)
    /\ row_probability r = p
    /\ (row_prediction r = "Diabetes Risk" <-> k = 1)
    /\ (k <> 1 -> row_prediction r = "No Risk")
    /\ ctx_result page = row_prediction r
    /\ ctx_probability page = py_round p 4.
Proof.
  intros Hn Hf Hp H0 H1 Hc Hk.
  assert (Ht : try_body' X = Ok (p, k)).
  { unfold try_body. rewrite Hp. cbn [bind].
    rewrite (index_nth _ _ _ H0). cbn [bind].
    rewrite (index_nth _ _ _ H1). cbn [bind]. rewrite Hc. cbn [bind].
    rewrite (index_nth _ _ _ Hk). reflexivity. }
  rewrite (predict_valid form db c X Hn Hf), Ht. cbn [respond fst snd].
  eexists. eexists. split; [ reflexivity | ]. cbn.
  repeat split; try apply label_risk; auto using label_no_risk.
Qed.

(** C5: in a request that normalises, an optional field that is absent
    (or empty, or rejected by its conversion) takes its declared default:
    pregnancies 0, skinthickness 10, dpf 0.2. *)
Theorem C5_absent_optional_takes_default (form : Form) (c : inputs) :
  normalize' form = Ok (inr c) ->
  (usable py_int (form_get form "pregnancies") = false ->
   pregnancies c = Some (VInt 0))
  /\ (usable py_int (form_get form "skinthickness") = false ->
      skinthickness c = Some (VInt 10))
  /\ (usable py_float (form_get form "dpf") = false ->
      dpf c = Some (VFloat 0.2%float)).
Proof.
  intros H. apply normalize_inr in H. destruct H as [_ ->].
  unfold settled, parsed, cast_int, cast_float;
    cbn [pregnancies skinthickness dpf].
  repeat split; intros U; rewrite (to_number_unusable _ _ _ _ U);
    reflexivity.
Qed.

(** The view reads the form only through [get]. *)
Lemma predict_reads_by_key (form form' : Form) (db : list row) :
  (forall k, assoc k form = assoc k form') ->
  normalize' form = normalize' form' /\ predict' form db = predict' form' db.
Proof.
  intros H.
  assert (Hn : normalize' form = normalize' form').
  { unfold normalize, parse, form_get. now rewrite !H. }
  split; [ exact Hn | ].
  unfold predict, form_get_or. now rewrite Hn, H.
Qed.

(** C6: in a request that normalises, the array handed to the classifier
    has one row of exactly 8 floats, the conversions of pregnancies,
    glucose, bloodpressure, skinthickness, insulin, bmi, dpf, age in this
    order; each of these values is decided by the form's entry under its
    own name alone; and reordering the entries of a form without repeated
    keys changes neither the normalised inputs nor the answer. *)
Theorem C6_feature_order_is_fixed (form : Form) (db : list row) (c : inputs) :
  normalize' form = Ok (inr c) ->
  (exists r,
     features c = Ok [r]
     /\ np_row (map (field_of c) feature_order) = Ok r
     /\ List.length r = 8%nat
     /\ predict' form db
        = (Ok (fst (respond' (form_get_or form "name" "Unknown") c
                      (try_body' [r]) db)),
           snd (respond' (form_get_or form "name" "Unknown") c
                  (try_body' [r]) db)))
  /\ (forall form2 c2 k,
        normalize' form2 = Ok (inr c2) -> In k feature_order ->
        form_get form2 k = form_get form k -> field_of c2 k = field_of c k)
  /\ (forall form',
        NoDup (map fst form) -> Permutation form form' ->
        normalize' form' = Ok (inr c)
        /\ predict' form' db = predict' form db).
Proof.
  intros Hn. split; [ | split ].
  - destruct (sound_features c (normalize_sound form c Hn))
      as (r & Hf & Hr & Hl & _).
    exists r. repeat split; auto. now apply predict_valid.
  - intros form2 c2 k H2 Hk E.
    apply normalize_inr in H2. destruct H2 as [_ ->].
    pose proof (normalize_inr form c Hn) as [_ ->].
    unfold feature_order in Hk. cbn [In] in Hk.
    repeat (destruct Hk as [<- | Hk];
            [ unfold field_of, settled, parsed; cbn; now rewrite E | ]).
    destruct Hk.
  - intros form' Hnd HP.
    destruct (predict_reads_by_key form form' db
                (assoc_permutation form form' HP Hnd)) as [E1 E2].
    split; congruence.
Qed.

(** C7: in a request that normalises, each of the 8 values lies within the
    closed range declared for its field (pregnancies 0..20, age 1..120,
    glucose 20..500, bloodpressure 20..200, skinthickness 5..100, insulin
    0..900, bmi 10.0..70.0, dpf 0.0..3.0): as the clamped Python values
    that are stored and shown, and as the floats of the feature row. *)
Theorem C7_features_within_ranges (form : Form) (c : inputs) :
  normalize' form = Ok (inr c) ->
  sound c
  /\ forallb (fun kv => within (fst kv) (snd kv)) (shown_inputs c) = true
  /\ exists r, features c = Ok [r] /\ all_within feature_order r = true.
Proof.
  intros Hn. pose proof (normalize_sound form c Hn) as Hs.
  split; [ exact Hs | split ].
  - now apply sound_within.
  - destruct (sound_features c Hs) as (r & Hf & _ & _ & Hw). eauto.
Qed.

(** No exception leaves the view: every request is answered. *)
Lemma predict_never_raises (form : Form) (db : list row) :
  exists page, fst (predict' form db) = Ok page.
Proof.
  pose proof (normalize_total py_int py_float form) as Hn.
  destruct (invalid form) as [ | k m ] eqn:E.
  - destruct (sound_features _ (settled_sound py_int py_float form E))
      as (r & Hf & _).
    rewrite (predict_valid form db _ _ Hn Hf). cbn [fst]. eauto.
  - rewrite (predict_invalid form db _ Hn). cbn [fst]. eauto.
Qed.

Lemma try_body_fails (X : list (list float)) :
  classifier_fails model X -> exists e, try_body' X = Raise e.
Proof.
  unfold try_body. intros [(e & H) | [(proba & H & Hl) | [(e & H) | H]]].
  - rewrite H. cbn. eauto.
  - rewrite H. cbn [bind]. unfold index at 1.
    destruct proba as [ | probs proba ]; cbn [nth_error]; [ cbn; eauto | ].
    cbn [bind]. cbn [nth] in Hl. unfold index at 1.
    destruct probs as [ | p0 [ | p1 probs ] ]; cbn in Hl; try lia;
      cbn; eauto.
  - destruct (predict_proba model X) as [proba | e0]; [ | cbn; eauto ].
    cbn [bind]. destruct (index proba 0) as [probs | e0]; [ | cbn; eauto ].
    cbn [bind]. destruct (index probs 1) as [p | e0]; [ | cbn; eauto ].
    cbn [bind]. rewrite H. cbn. eauto.
  - destruct (predict_proba model X) as [proba | e0]; [ | cbn; eauto ].
    cbn [bind]. destruct (index proba 0) as [probs | e0]; [ | cbn; eauto ].
    cbn [bind]. destruct (index probs 1) as [p | e0]; [ | cbn; eauto ].
    cbn [bind]. rewrite H. cbn. eauto.
Qed.

(** C8: when one of the two classifier calls fails on the array built for
    a request ([predict_proba] or [predict] raises, for instance on the
    feature count, or the probabilities have no row or a row shorter than
    two, or no class comes back), the exception is caught: the request is
    answered 500 with "Model prediction error: " followed by the
    exception's text.  And no request at all ends in an exception leaving
    the view. *)
Theorem C8_classifier_failure_is_caught (form : Form) (db : list row)
    (c : inputs) (X : list (list float)) :
  normalize' form = Ok (inr c) -> features c = Ok X ->
  classifier_fails model X ->
  (exists e,
     try_body' X = Raise e
     /\ predict' form db
        = (Ok (Text ("Model prediction error: " ++ str e) 500), db))
  /\ (forall form2 db2, exists page, fst (predict' form2 db2) = Ok page).
Proof.
  intros Hn Hf Hc. split.
  - destruct (try_body_fails X Hc) as (e & He). exists e.
    split; [ exact He | ].
    rewrite (predict_valid form db c X Hn Hf), He. reflexivity.
  - intros form2 db2. apply predict_never_raises.
Qed.

(** C9: a row is stored exactly when scoring succeeds.  When the answer
    is the result page, the table has grown by exactly one row, the one
    the page shows; on every other answer (the 400 of a validation error,
    the 500 of a scoring error) the table is unchanged.  And the answer is
    the result page exactly when normalisation, the feature array and the
    classifier calls all succeeded. *)
Theorem C9_row_saved_exactly_on_success (form : Form) (db : list row) :
  match predict' form db with
  | (Ok (Template _ page), db') =>
      exists r,
        db' = (db ++ [r])%list
        /\ row_name r = ctx_name page
        /\ row_prediction r = ctx_result page
        /\ shown_inputs (row_inputs r) = ctx_inputs page
  | (_, db') => db' = db
  end
  /\ ((exists c X v,
         normalize' form = Ok (inr c) /\ features c = Ok X
         /\ try_body' X = Ok v)
      <-> (exists page,
             fst (predict' form db) = Ok (Template "result.html" page))).
Proof.
  unfold predict.
  destruct (normalize' form) as [[m | c] | e] eqn:Hn; cbn.
  - split; [ reflexivity | ].
    split; [ intros (c & X & v & H & _) | intros (page & H) ]; discriminate.
  - destruct (features c) as [X | e] eqn:Hf; cbn.
    + destruct (try_body' X) as [[p k] | e] eqn:Ht; cbn.
      * split.
        -- eexists. split; [ reflexivity | ]. cbn. auto.
        -- split; [ eauto | ]. intros _. exists c, X, (p, k). auto.
      * split; [ reflexivity | ].
        split; [ intros (c' & X' & v & H1 & H2 & H3) | intros (page & H) ];
          [ | discriminate ].
        congruence.
    + split; [ reflexivity | ].
      split; [ intros (c' & X' & v & H1 & H2 & H3) | intros (page & H) ];
        [ | discriminate ].
      congruence.
  - split; [ reflexivity | ].
    split; [ intros (c & X & v & H & _) | intros (page & H) ]; discriminate.
Qed.

(** C10: a request without a name entry is not a validation failure: the
    name is never among the reported fields, normalisation succeeds as soon
    as the five required numbers are usable, and when scoring succeeds the
    row stored and the page shown both carry the name "Unknown". *)
Theorem C10_absent_name_is_Unknown (form : Form) (db : list row) :
  form_get form "name" = None ->
  (forall m, normalize' form = Ok (inl m) -> ~ In "name" m)
  /\ (invalid form = [] ->
      exists c X, normalize' form = Ok (inr c) /\ features c = Ok X)
  /\ (forall c X p k,
        normalize' form = Ok (inr c) -> features c = Ok X ->
        try_body' X = Ok (p, k) ->
        exists page r,
          predict' form db
          = (Ok (Template "result.html" page), (db ++ [r])%list)
          /\ ctx_name page = "Unknown" /\ row_name r = "Unknown").
Proof.
  intros Hname. split; [ | split ].
  - intros m Hm Hin. rewrite normalize_total in Hm.
    assert (E : m = invalid form) by (destruct (invalid form); congruence).
    subst m.
    revert Hin. unfold invalid_required.
    destruct (usable py_int (form_get form "age")),
             (usable py_int (form_get form "glucose")),
             (usable py_int (form_get form "bloodpressure")),
             (usable py_int (form_get form "insulin")),
             (usable py_float (form_get form "bmi")); cbn;
      intuition discriminate.
  - intros E. pose proof (normalize_total py_int py_float form) as Hn.
    rewrite E in Hn.
    destruct (sound_features _ (settled_sound py_int py_float form E))
      as (r & Hf & _). eauto.
  - intros c X p k Hn Hf Ht.
    rewrite (predict_valid form db c X Hn Hf), Ht. cbn [respond fst snd].
    unfold form_get_or. unfold form_get in Hname. rewrite Hname.
    eexists. eexists. split; [ reflexivity | ]. cbn. auto.
Qed.

End Requests.

(** ** What [clamp] does on its own *)

Lemma SFcompare_antisym (x y : spec_float) :
  SFcompare y x = option_map CompOpp (SFcompare x y).
Proof.
  destruct x as [s1 | s1 | | s1 m1 e1], y as [s2 | s2 | | s2 m2 e2]; cbn;
    try reflexivity; try (destruct s1; reflexivity);
    try (destruct s2; reflexivity); try (destruct s1, s2; reflexivity).
  change (Pos.compare_cont Eq) with Pos.compare.
  destruct s1, s2; try reflexivity; f_equal;
    destruct (Z.compare_spec e1 e2), (Z.compare_spec e2 e1); try lia;
    try reflexivity;
    destruct (Pos.compare_spec m1 m2), (Pos.compare_spec m2 m1); try lia;
    reflexivity.
Qed.

Lemma SFltb_trans (x y z : spec_float) :
  SFltb x y = true -> SFltb y z = true -> SFltb x z = true.
Proof.
  unfold SFltb.
  destruct x as [s1 | s1 | | s1 m1 e1], y as [s2 | s2 | | s2 m2 e2],
           z as [s3 | s3 | | s3 m3 e3]; cbn;
    try discriminate;
    try (destruct s1; discriminate
         || (destruct s2; discriminate
             || (destruct s3; discriminate || reflexivity)));
    try (destruct s1, s2, s3; discriminate || reflexivity).
  all: destruct s1, s2, s3; try discriminate; try reflexivity.
  all: change (Pos.compare_cont Eq) with Pos.compare.
  all: destruct (Z.compare_spec e1 e2), (Z.compare_spec e2 e3),
         (Z.compare_spec e1 e3);
       try discriminate; try reflexivity; try lia; subst.
  all: destruct (Pos.compare_spec m1 m2), (Pos.compare_spec m2 m3),
         (Pos.compare_spec m1 m3);
       cbn; try discriminate; try reflexivity; try lia.
Qed.

Lemma ltb_trans (x y z : float) :
  PrimFloat.ltb x y = true -> PrimFloat.ltb y z = true ->
  PrimFloat.ltb x z = true.
Proof. rewrite !ltb_spec. apply SFltb_trans. Qed.

Lemma ltb_asym (x y : float) :
  PrimFloat.ltb x y = true -> PrimFloat.ltb y x = false.
Proof.
  rewrite !ltb_spec. unfold SFltb. rewrite (SFcompare_antisym (Prim2SF x)).
  destruct (SFcompare (Prim2SF x) (Prim2SF y)) as [[ | | ] | ];
    cbn; congruence.
Qed.

(** A float that compares equal to a non-zero finite float is that float. *)
Lemma compare_Eq_finite (x y : float) (s : bool) (m : positive) (e : Z) :
  Prim2SF y = S754_finite s m e ->
  SFcompare (Prim2SF x) (Prim2SF y) = Some Eq -> x = y.
Proof.
  intros Hy H. apply Prim2SF_inj. rewrite Hy in *.
  destruct (Prim2SF x) as [s1 | s1 | | s1 m1 e1]; cbn in H;
    try discriminate; try (destruct s1; discriminate);
    try (destruct s; discriminate).
  change (Pos.compare_cont Eq) with Pos.compare in H.
  destruct s1, s; try discriminate;
    destruct (Z.compare_spec e1 e); try discriminate; subst;
    destruct (Pos.compare_spec m1 m); try discriminate; subst; reflexivity.
Qed.

Lemma leb_not_ltb (x y : float) :
  PrimFloat.leb x y = true -> PrimFloat.ltb x y = false ->
  SFcompare (Prim2SF x) (Prim2SF y) = Some Eq.
Proof.
  rewrite leb_spec, ltb_spec. unfold SFleb, SFltb.
  destruct (SFcompare (Prim2SF x) (Prim2SF y)) as [[ | | ] | ]; congruence.
Qed.

(** X4: under a name whose range is given in ints, [clamp] of an int is
    the saturating clamp: below the range it answers the lower bound, above
    it the upper bound, inside it the int itself; and the bounds are in
    order. *)
Lemma clamp_saturates_int (name : string) (lo hi v : Z) :
  assoc name RANGES = Some (VInt lo, VInt hi) ->
  lo <= hi
  /\ clamp name (Some (VInt v)) = Ok (Some (VInt (Z.max lo (Z.min hi v))))
  /\ (v < lo -> clamp name (Some (VInt v)) = Ok (Some (VInt lo)))
  /\ (hi < v -> clamp name (Some (VInt v)) = Ok (Some (VInt hi)))
  /\ (lo <= v <= hi -> clamp name (Some (VInt v)) = Ok (Some (VInt v))).
Proof.
  intros H.
  assert (Hle : lo <= hi).
  { revert H. unfold RANGES. cbn [assoc].
    repeat match goal with
           | |- context [String.eqb ?a name] => destruct (String.eqb a name)
           end; intros H; inversion H; lia. }
  split; [ exact Hle | ].
  rewrite (clamp_known name (VInt lo) (VInt hi)) by assumption.
  rewrite clamped_int_value.
  repeat split; intros; do 3 f_equal; lia.
Qed.

(** X5: under a name whose range is given in floats (bmi, dpf), [clamp] of
    a float below the range answers the lower bound, above it the upper
    bound, and strictly above the lower bound and at most the upper bound
    the float itself; a float equal to the lower bound comes out as the
    lower bound (so -0.0 becomes 0.0 for dpf). *)
Lemma clamp_saturates_float (name : string) (lo hi f : float) :
  assoc name RANGES = Some (VFloat lo, VFloat hi) ->
  (PrimFloat.ltb f lo = true ->
   clamp name (Some (VFloat f)) = Ok (Some (VFloat lo)))
  /\ (PrimFloat.ltb hi f = true ->
      clamp name (Some (VFloat f)) = Ok (Some (VFloat hi)))
  /\ (PrimFloat.ltb lo f = true -> PrimFloat.leb f hi = true ->
      clamp name (Some (VFloat f)) = Ok (Some (VFloat f)))
  /\ (PrimFloat.leb lo f = true -> PrimFloat.ltb lo f = false ->
      clamp name (Some (VFloat f)) = Ok (Some (VFloat lo))).
Proof.
  intros H.
  assert (Hk : PrimFloat.ltb lo hi = true
               /\ exists s m e, Prim2SF hi = S754_finite s m e).
  { revert H. unfold RANGES. cbn [assoc].
    repeat match goal with
           | |- context [String.eqb ?a name] => destruct (String.eqb a name)
           end; intros H; inversion H; subst;
      (split; [ reflexivity | ]); do 3 eexists; vm_compute; reflexivity. }
  destruct Hk as (Hlt & s & m & e & Hfin).
  rewrite (clamp_known name (VFloat lo) (VFloat hi)) by assumption.
  unfold clamped, option_map, py_max, py_gt, py_min, py_lt.
  split; [ | split; [ | split ] ].
  - intros Hf. rewrite (ltb_trans _ _ _ Hf Hlt), (ltb_asym _ _ Hf).
    reflexivity.
  - intros Hf. rewrite (ltb_asym _ _ Hf), Hlt. reflexivity.
  - intros Hl Hu. destruct (PrimFloat.ltb f hi) eqn:E.
    + rewrite Hl. reflexivity.
    + rewrite Hlt.
      rewrite (compare_Eq_finite f hi s m e Hfin (leb_not_ltb _ _ Hu E)).
      reflexivity.
  - intros Hl Hn. destruct (PrimFloat.ltb f hi) eqn:E.
    + rewrite Hn. reflexivity.
    + exfalso.
      pose proof (leb_not_ltb _ _ Hl Hn) as Eq1.
      rewrite ltb_spec in E, Hlt. unfold SFltb in E, Hlt.
      rewrite (SFcompare_antisym (Prim2SF f) (Prim2SF lo)) in Eq1.
      destruct (SFcompare (Prim2SF f) (Prim2SF lo)) as [[ | | ] | ] eqn:Eq2;
        try discriminate.
      assert (T : SFltb (Prim2SF f) (Prim2SF hi) = true).
      { revert Eq2 Hlt. clear. unfold SFltb.
        destruct (Prim2SF f) as [s1 | s1 | | s1 m1 e1],
                 (Prim2SF lo) as [s2 | s2 | | s2 m2 e2],
                 (Prim2SF hi) as [s3 | s3 | | s3 m3 e3]; cbn;
          try discriminate; try (destruct s1; discriminate);
          try (destruct s2; discriminate);
          try (destruct s1, s2; discriminate); auto;
          try (destruct s1, s2, s3; discriminate || reflexivity).
        change (Pos.compare_cont Eq) with Pos.compare.
        destruct s1, s2; try discriminate;
          destruct (Z.compare_spec e1 e2); try discriminate; subst;
          destruct (Pos.compare_spec m1 m2); try discriminate; subst; auto. }
      unfold SFltb in T. rewrite T in E. discriminate.
Qed.

(** ** The zero of an optional field *)

(** Line 96, 100 and 103 hand [clamp] the value [x or DEFAULTS[k]]: an
    optional field that was submitted and parsed to a zero is false, so the
    default takes its place before clamping. *)
Lemma zero_optional_is_replaced (py_int : string -> option Z)
    (py_float : string -> option float) (form : Form) (c : inputs)
    (s : string) :
  normalize py_int py_float form = Ok (inr c) ->
  (form_get form "pregnancies" = Some s -> py_int s = Some 0 ->
   pregnancies c = Some (VInt 0))
  /\ (form_get form "skinthickness" = Some s -> py_int s = Some 0 ->
      skinthickness c = Some (VInt 10))
  /\ (forall f, form_get form "dpf" = Some s -> py_float s = Some f ->
      PrimFloat.eqb f 0 = true -> dpf c = Some (VFloat 0.2%float)).
Proof.
  intros H. apply normalize_inr in H. destruct H as [_ ->].
  unfold settled, parsed, cast_int, cast_float;
    cbn [pregnancies skinthickness dpf].
  repeat split.
  - intros -> E. cbn. rewrite E. now destruct (String.eqb s "").
  - intros -> E. cbn. rewrite E. now destruct (String.eqb s "").
  - intros f -> E Z0. cbn. rewrite E.
    destruct (String.eqb s ""); [ reflexivity | ].
    cbn. unfold defaulted. cbn. rewrite Z0. reflexivity.
Qed.

(** C1 (the code departs from it): the sample request with dpf submitted as
    0.0, 0 or -0.0 normalises dpf to the default 0.2, although [float]
    parses the text to zero; 0.1 is kept and -1 is clamped to 0.0, so 0.0 is
    a value the field can take.  A submitted skinthickness of 0 becomes the
    default 10 in the same way. *)
Theorem C1_zero_dpf_is_replaced_by_default :
  float_literal "0.0" = Some 0%float
  /\ normalized "dpf" (submit "dpf" "0.0") = Some (VFloat 0.2%float)
  /\ normalized "dpf" (submit "dpf" "0") = Some (VFloat 0.2%float)
  /\ normalized "dpf" (submit "dpf" "-0.0") = Some (VFloat 0.2%float)
  /\ normalized "dpf" (submit "dpf" "0.1") = Some (VFloat 0.1%float)
  /\ normalized "dpf" (submit "dpf" "-1") = Some (VFloat 0%float)
  /\ int_literal "0" = Some 0
  /\ normalized "skinthickness" (submit "skinthickness" "0")
     = Some (VInt 10).
Proof. vm_compute. repeat split. Qed.

(** C4 (the code departs from it): skinthickness ranges over 5..100; the
    submitted values -1, 1 and 4 lie below the range and normalise to the
    lower bound 5, 150 to the upper bound 100, but 0, also below the range,
    normalises to 10; and dpf 0.0, inside its range 0.0..3.0, is changed to
    0.2.  glucose 9999 normalises to 500. *)
Theorem C4_zero_escapes_the_clamp :
  assoc "skinthickness" RANGES = Some (VInt 5, VInt 100)
  /\ normalized "skinthickness" (submit "skinthickness" "-1") = Some (VInt 5)
  /\ normalized "skinthickness" (submit "skinthickness" "1") = Some (VInt 5)
  /\ normalized "skinthickness" (submit "skinthickness" "4") = Some (VInt 5)
  /\ normalized "skinthickness" (submit "skinthickness" "150")
     = Some (VInt 100)
  /\ normalized "skinthickness" (submit "skinthickness" "0")
     = Some (VInt 10)
  /\ within "dpf" (Some (VFloat 0%float)) = true
  /\ normalized "dpf" (submit "dpf" "0.0") = Some (VFloat 0.2%float)
  /\ normalized "glucose" (submit "glucose" "9999") = Some (VInt 500).
Proof. vm_compute. repeat split. Qed.

(** ** Concrete requests *)

Example sample_normalises :
  py_normalize sample_form
  = Ok (inr sample_inputs).
Proof. vm_compute. reflexivity. Qed.

Example sample_features :
  bind (py_normalize sample_form)
    (fun r => match r with inr c => features c | inl _ => Ok [] end)
  = Ok [[0; 180; 90; 10; 120; 32.5; 0.2; 45]%float].
Proof. vm_compute. reflexivity. Qed.

Example text_is_rejected :
  py_predict (steady 0.25 0.75 1)
    [ ("age", "45"); ("glucose", "180"); ("bloodpressure", "abc");
      ("insulin", ""); ("bmi", "32.5") ] []
  = (Ok (Text "Missing or invalid fields: bloodpressure, insulin. Please provide valid numeric values." 400), []).
Proof. vm_compute. reflexivity. Qed.

Example first_entry_wins :
  py_normalize (sample_form ++ [("bloodpressure", "abc")])%list
  = py_normalize sample_form.
Proof. vm_compute. reflexivity. Qed.

Example short_probabilities :
  py_predict (one_column 0.5 1) sample_form []
  = (Ok (Text "Model prediction error: index 1 is out of bounds for axis 0 with size 1" 500), []).
Proof. vm_compute. reflexivity. Qed.

Example nan_bmi_is_clamped :
  normalized "bmi" (submit "bmi" "nan") = Some (VFloat 70%float).
Proof. vm_compute. reflexivity. Qed.

Example decimal_age_is_rejected :
  py_normalize (submit "age" "45.5") = Ok (inl ["age"]).
Proof. vm_compute. reflexivity. Qed.

Example huge_age_is_clamped :
  normalized "age" (submit "age" "1000000000000000000000000000000")
  = Some (VInt 120).
Proof. vm_compute. reflexivity. Qed.

(** ** Instances *)

Lemma C3_verdict_witness :
  exists page r,
    predict int_literal float_literal round_literal (steady 0.25 0.75 1)
      sample_form []
    = (Ok (Template "result.html" page), ([] ++ [r])%list)
    /\ row_probability r = 0.75%float
    /\ (row_prediction r = "Diabetes Risk" <-> 1 = 1)
    /\ (1 <> 1 -> row_prediction r = "No Risk")
    /\ ctx_result page = row_prediction r
    /\ ctx_probability page = round_literal 0.75 4.
Proof.
  eapply (C3_verdict_follows_classifier int_literal float_literal
            round_literal (steady 0.25 0.75 1) sample_form []).
  - vm_compute. reflexivity.
  - vm_compute. reflexivity.
  - vm_compute. reflexivity.
  - reflexivity.
  - reflexivity.
  - vm_compute. reflexivity.
  - reflexivity.
Defined.

Lemma C5_default_witness :
  normalize int_literal float_literal sample_form = Ok (inr sample_inputs)
  /\ pregnancies sample_inputs = Some (VInt 0)
  /\ skinthickness sample_inputs = Some (VInt 10)
  /\ dpf sample_inputs = Some (VFloat 0.2%float).
Proof.
  assert (H : normalize int_literal float_literal sample_form
              = Ok (inr sample_inputs)) by (vm_compute; reflexivity).
  destruct (C5_absent_optional_takes_default int_literal float_literal
              sample_form sample_inputs H) as (H1 & H2 & H3).
  split; [ exact H | ].
  split; [ apply H1; reflexivity | ].
  split; [ apply H2; reflexivity | apply H3; reflexivity ].
Defined.

Lemma C6_order_witness :
  normalize int_literal float_literal (rev sample_form)
  = Ok (inr sample_inputs)
  /\ predict int_literal float_literal round_literal (steady 0.25 0.75 1)
       (rev sample_form) []
     = predict int_literal float_literal round_literal (steady 0.25 0.75 1)
         sample_form [].
Proof.
  assert (H : normalize int_literal float_literal sample_form
              = Ok (inr sample_inputs)) by (vm_compute; reflexivity).
  destruct (C6_feature_order_is_fixed int_literal float_literal round_literal
              (steady 0.25 0.75 1) sample_form [] sample_inputs H)
    as (_ & _ & HP).
  apply HP.
  - cbn. repeat constructor; cbn; intuition discriminate.
  - apply Permutation_rev.
Defined.

Lemma C7_ranges_witness :
  sound sample_inputs
  /\ forallb (fun kv => within (fst kv) (snd kv)) (shown_inputs sample_inputs)
     = true
  /\ exists r,
       features sample_inputs = Ok [r] /\ all_within feature_order r = true.
Proof.
  apply (C7_features_within_ranges int_literal float_literal sample_form).
  vm_compute. reflexivity.
Defined.

Lemma C8_caught_witness :
  (exists e,
     try_body (broken "X has 9 features") [[0; 180; 90; 10; 120; 32.5; 0.2; 45]%float]
     = Raise e
     /\ predict int_literal float_literal round_literal
          (broken "X has 9 features") sample_form []
        = (Ok (Text ("Model prediction error: " ++ str e) 500), []))
  /\ (forall form2 db2,
        exists page,
          fst (predict int_literal float_literal round_literal
                 (broken "X has 9 features") form2 db2) = Ok page).
Proof.
  apply (C8_classifier_failure_is_caught int_literal float_literal
           round_literal (broken "X has 9 features") sample_form []
           sample_inputs).
  - vm_compute. reflexivity.
  - vm_compute. reflexivity.
  - left. exists (ModelError "X has 9 features"). reflexivity.
Defined.

Lemma C10_unknown_witness :
  form_get sample_form "name" = None
  /\ exists page r,
       predict int_literal float_literal round_literal (steady 0.25 0.75 1)
         sample_form []
       = (Ok (Template "result.html" page), ([] ++ [r])%list)
       /\ ctx_name page = "Unknown" /\ row_name r = "Unknown".
Proof.
  split; [ reflexivity | ].
  destruct (C10_absent_name_is_Unknown int_literal float_literal
              round_literal (steady 0.25 0.75 1) sample_form []
              eq_refl) as (_ & _ & H).
  apply (H sample_inputs [[0; 180; 90; 10; 120; 32.5; 0.2; 45]%float]
           0.75%float 1); vm_compute; reflexivity.
Defined.

(** * Further properties of the code *)

(** ** [clamp] on any name and any value *)

Lemma assoc_None {V : Type} (k : string) (d : list (string * V)) :
  assoc k d = None <-> ~ In k (map fst d).
Proof.
  induction d as [ | [k' v] d IH ]; cbn.
  - tauto.
  - destruct (String.eqb_spec k' k) as [-> | Hk].
    + split; [ discriminate | tauto ].
    + rewrite IH. tauto.
Qed.

(** What every entry of [RANGES] satisfies. *)
Lemma ranges_ordered (name : string) (lo hi : pyval) :
  assoc name RANGES = Some (lo, hi) ->
  py_lt lo hi = true /\ py_lt lo lo = false /\ py_lt hi hi = false
  /\ py_le lo lo = true /\ py_le hi hi = true /\ py_le lo hi = true.
Proof.
  unfold RANGES. cbn [assoc].
  repeat match goal with
         | |- context [String.eqb ?a name] => destruct (String.eqb a name)
         end; intros H; inversion H; subst; vm_compute; repeat split.
Qed.

Lemma py_lt_le (a b : pyval) : py_lt a b = true -> py_le a b = true.
Proof.
  destruct a as [x | x], b as [y | y]; cbn.
  - intros H. apply Z.leb_le. apply Z.ltb_lt in H. lia.
  - destruct (float_cmp_int y x) as [[ | | ] | ]; congruence.
  - destruct (float_cmp_int x y) as [[ | | ] | ]; congruence.
  - apply ltb_leb.
Qed.

Lemma clamp_Some (name : string) (v : pyval) (y : pyobj) :
  clamp name (Some v) = Ok y ->
  exists lo hi,
    assoc name RANGES = Some (lo, hi) /\ y = Some (py_max lo (py_min hi v)).
Proof.
  unfold clamp, getitem.
  destruct (assoc name RANGES) as [[lo hi] | ]; cbn; intros H;
    [ | discriminate ].
  exists lo, hi. split; congruence.
Qed.

(** X1: [clamp] tests for [None] before it looks the name up: [None] comes
    back as [None] under any name, known or not; a number under a name that
    is not a key of [RANGES] raises [KeyError] for that name, and nothing
    else makes [clamp] raise. *)
Theorem X1_clamp_raises_only_on_unknown_key (name : string) (x : pyobj) :
  clamp name None = Ok None
  /\ ((exists e, clamp name x = Raise e)
      <-> x <> None /\ ~ In name (map fst RANGES))
  /\ (forall e, clamp name x = Raise e -> e = KeyError name).
Proof.
  split; [ reflexivity | ].
  rewrite <- assoc_None. unfold clamp, getitem.
  destruct x as [v | ].
  - destruct (assoc name RANGES) as [[lo hi] | ]; cbn [bind]; split.
    + split; [ intros (e & H) | intros (_ & H) ]; discriminate.
    + discriminate.
    + split; [ intros _ | eauto ]. split; [ discriminate | reflexivity ].
    + intros e H. congruence.
  - split.
    + split; [ intros (e & H); discriminate | intros (H & _); now destruct H ].
    + discriminate.
Qed.

(** X2: [clamp] is idempotent: clamping what [clamp] returned, under the
    same name, changes nothing.  This holds for every value, ints and
    floats of either kind of range, infinities and NaN included. *)
Theorem X2_clamp_idempotent (name : string) (x y : pyobj) :
  clamp name x = Ok y -> clamp name y = Ok y.
Proof.
  destruct x as [v | ]; [ | cbn; intros H; inversion H; reflexivity ].
  intros H. apply clamp_Some in H. destruct H as (lo & hi & Hr & ->).
  destruct (ranges_ordered name lo hi Hr) as (Hlt & Hlo & Hhi & _).
  rewrite (clamp_known name lo hi) by assumption.
  unfold clamped, option_map, py_max, py_min, py_gt.
  destruct (py_lt v hi) eqn:E1.
  - destruct (py_lt lo v) eqn:E2.
    + now rewrite E1, E2.
    + now rewrite Hlt, Hlo.
  - now rewrite Hlt, Hhi, Hlt.
Qed.

(** X3: whatever number goes in, what [clamp] returns lies within the
    closed range declared under the name. *)
Theorem X3_clamp_result_within_range (name : string) (v : pyval) (y : pyobj) :
  clamp name (Some v) = Ok y -> within name y = true.
Proof.
  intros H. apply clamp_Some in H. destruct H as (lo & hi & Hr & ->).
  destruct (ranges_ordered name lo hi Hr) as (Hlt & _ & _ & Hl & Hh & Hlh).
  unfold within. rewrite Hr. unfold py_max, py_min, py_gt.
  destruct (py_lt v hi) eqn:E1.
  - destruct (py_lt lo v) eqn:E2.
    + now rewrite (py_lt_le _ _ E1), (py_lt_le _ _ E2).
    + now rewrite Hl, Hlh.
  - now rewrite Hlt, Hlh, Hh.
Qed.

Lemma SFcompare_refl (x : spec_float) :
  x <> S754_nan -> SFcompare x x = Some Eq.
Proof.
  destruct x as [s | s | | s m e]; cbn; intros H; try congruence.
  - now destruct s.
  - change (Pos.compare_cont Eq) with Pos.compare.
    rewrite Z.compare_refl, Pos.compare_refl. now destruct s.
Qed.

(** A float that differs from itself is a NaN. *)
Lemma self_unequal_nan (f : float) :
  PrimFloat.eqb f f = false -> Prim2SF f = S754_nan.
Proof.
  rewrite eqb_spec. unfold SFeqb. intros H.
  destruct (Prim2SF f) as [s | s | | s m e] eqn:E; try reflexivity;
    rewrite SFcompare_refl in H; discriminate.
Qed.

(** X6: a NaN (a float that differs from itself) is not an error for
    [clamp]: under every name of [RANGES] it comes out as the upper bound
    of the range. *)
Theorem X6_clamp_sends_nan_to_upper_bound (name : string) (lo hi : pyval)
    (f : float) :
  assoc name RANGES = Some (lo, hi) -> PrimFloat.eqb f f = false ->
  clamp name (Some (VFloat f)) = Ok (Some hi).
Proof.
  intros Hr Hf. pose proof (self_unequal_nan f Hf) as Hn.
  destruct (ranges_ordered name lo hi Hr) as (Hlt & _).
  rewrite (clamp_known name lo hi) by assumption.
  unfold clamped, option_map, py_max, py_min, py_gt.
  assert (E : py_lt (VFloat f) hi = false).
  { destruct hi as [h | h]; cbn.
    - unfold float_cmp_int. now rewrite Hn.
    - rewrite ltb_spec. unfold SFltb. now rewrite Hn. }
  now rewrite E, Hlt.
Qed.

(** X7: on ints [clamp] is monotone: a larger int never clamps to a
    smaller one. *)
Theorem X7_clamp_monotone_on_ints (name : string) (lo hi v w : Z) :
  assoc name RANGES = Some (VInt lo, VInt hi) -> v <= w ->
  exists a b,
    clamp name (Some (VInt v)) = Ok (Some (VInt a))
    /\ clamp name (Some (VInt w)) = Ok (Some (VInt b))
    /\ a <= b.
Proof.
  intros Hr Hvw.
  exists (Z.max lo (Z.min hi v)), (Z.max lo (Z.min hi w)).
  rewrite !(clamp_known name (VInt lo) (VInt hi)) by assumption.
  rewrite !clamped_int_value. repeat split. lia.
Qed.

(** ** The body of the [try] *)

Lemma try_body_cases (model : Classifier) (X : list (list float)) :
  ((exists e, try_body model X = Raise e) <-> classifier_fails model X)
  /\ (forall p k,
        try_body model X = Ok (p, k) <->
        exists proba probs classes,
          predict_proba model X = Ok proba /\ nth_error proba 0 = Some probs
          /\ nth_error probs 1 = Some p
          /\ predict_class model X = Ok classes
          /\ nth_error classes 0 = Some k).
Proof.
  unfold classifier_fails, try_body.
  destruct (predict_proba model X) as [proba | e1]; cbn [bind].
  2:{ split.
      - split; [ intros _; left; eauto | cbn; eauto ].
      - intros p k. split; [ discriminate | ].
        intros (a & b & c & H & _). discriminate. }
  destruct proba as [ | probs rest ]; cbn [index nth_error bind nth].
  { split.
    - split; [ intros _ | cbn; eauto ].
      right. left. exists []. cbn. split; [ reflexivity | lia ].
    - intros p k. split; [ discriminate | ].
      intros (a & b & c & H & H0 & _). inversion H; subst. discriminate. }
  destruct probs as [ | p0 [ | p1 more ] ]; cbn [index nth_error bind].
  1,2: split;
    [ split; [ intros _ | cbn; eauto ];
      right; left; eexists; split; [ reflexivity | cbn; lia ]
    | intros p k; split; [ discriminate | ];
      intros (a & b & c & H & H0 & H1 & _); inversion H; subst;
      cbn in H0; inversion H0; subst; discriminate ].
  destruct (predict_class model X) as [classes | e2]; cbn [bind].
  2:{ split.
      - split; [ intros _; right; right; left; eauto | cbn; eauto ].
      - intros p k. split; [ discriminate | ].
        intros (a & b & c & _ & _ & _ & H & _). discriminate. }
  destruct classes as [ | k0 others ]; cbn [index nth_error bind].
  { split.
    - split; [ intros _; right; right; right; reflexivity | cbn; eauto ].
    - intros p k. split; [ discriminate | ].
      intros (a & b & c & _ & _ & _ & H & Hk). inversion H; subst.
      discriminate. }
  split.
  - split; [ intros (e & H); discriminate | ].
    intros [(e & H) | [(a & H & Hl) | [(e & H) | H]]]; try discriminate.
    inversion H; subst. cbn in Hl. lia.
  - intros p k. split.
    + intros H. inversion H; subst.
      exists ((p0 :: p :: more) :: rest), (p0 :: p :: more), (k :: others).
      cbn. auto.
    + intros (a & b & c & H & H0 & H1 & H2 & H3).
      inversion H; subst. cbn in H0. inversion H0; subst.
      cbn in H1. inversion H1; subst. inversion H2; subst.
      cbn in H3. inversion H3; subst. reflexivity.
Qed.

(** X8: the body of the [try] fails exactly when [predict_proba] raises,
    or its answer has no first row or a first row shorter than two, or
    [predict] raises or answers no class; otherwise it yields the entry at
    index 1 of the first row of probabilities and the first class. *)
Theorem X8_try_body_outcomes (model : Classifier) (X : list (list float)) :
  ((exists e, try_body model X = Raise e) <-> classifier_fails model X)
  /\ (forall p k,
        try_body model X = Ok (p, k) <->
        exists proba probs classes,
          predict_proba model X = Ok proba /\ nth_error proba 0 = Some probs
          /\ nth_error probs 1 = Some p
          /\ predict_class model X = Ok classes
          /\ nth_error classes 0 = Some k).
Proof. exact (try_body_cases model X). Qed.

(** ** Normalisation, field by field *)

Lemma small_int_exact (z : Z) :
  0 <= z <= 900 -> float_cmp_int (float_of_int z) z = Some Eq.
Proof.
  intros H.
  apply (bounded_check
           (fun z => match float_cmp_int (float_of_int z) z with
                     | Some Eq => true
                     | _ => false
                     end) 900%nat) in H.
  - destruct (float_cmp_int (float_of_int z) z) as [[ | | ] | ];
      congruence.
  - vm_compute. reflexivity.
Qed.

Lemma to_number_parsed {A : Type} (conv : string -> option A)
    (inj : A -> pyval) (s : string) (a : A) (d : pyobj) :
  s <> "" -> conv s = Some a ->
  to_number (Some s) (fun s => option_map inj (conv s)) d = Some (inj a).
Proof.
  intros Hs Ha. cbn. destruct (String.eqb_spec s ""); [ contradiction | ].
  now rewrite Ha.
Qed.

Lemma usable_nonempty {A : Type} (conv : string -> option A) (s : string) :
  usable conv (Some s) = true -> s <> "".
Proof.
  cbn. destruct (String.eqb_spec s ""); [ discriminate | auto ].
Qed.

Section Fields.

Variable py_int : string -> option Z.
Variable py_float : string -> option float.
Variable py_round : float -> Z -> float.
Variable model : Classifier.

Local Abbreviation parsed' := (parsed py_int py_float).
Local Abbreviation normalize' := (normalize py_int py_float).
Local Abbreviation invalid := (invalid_required py_int py_float).
Local Abbreviation predict' := (predict py_int py_float py_round model).
Local Abbreviation try_body' := (try_body model).
Local Abbreviation run' := (run py_int py_float py_round model).

(** X9: in a request that normalises, the float row given to the
    classifier carries exactly the clamped values: every int is converted
    without rounding and every float is passed as it is. *)
Theorem X9_feature_row_is_exact (form : Form) (c : inputs) :
  normalize' form = Ok (inr c) ->
  exists r, features c = Ok [r] /\ Forall2 represents (feature_row c) r.
Proof.
  intros Hn. pose proof (normalize_sound _ _ form c Hn) as Hs.
  destruct Hs as ((z1 & E1 & B1) & (z2 & E2 & B2) & (z3 & E3 & B3)
                  & (z4 & E4 & B4) & (z5 & E5 & B5) & (z6 & E6 & B6)
                  & (f7 & E7 & _) & (f8 & E8 & _)).
  exists [ float_of_int z1; float_of_int z3; float_of_int z4; float_of_int z5;
           float_of_int z6; f7; f8; float_of_int z2 ].
  unfold features, feature_row. rewrite E1, E2, E3, E4, E5, E6, E7, E8.
  split.
  - cbn [np_row]. rewrite !to_double_small by lia. reflexivity.
  - repeat constructor; cbn; apply small_int_exact; lia.
Qed.

(** X10: in a request that normalises, a required field ends as [clamp] of
    the number its entry parses to, zero included (insulin 0 stays 0):
    nothing but the clamp touches a required value. *)
Theorem X10_required_field_is_clamped_parse (form : Form) (c : inputs) :
  normalize' form = Ok (inr c) ->
  (forall k s z,
     In k ["age"; "glucose"; "bloodpressure"; "insulin"] ->
     form_get form k = Some s -> py_int s = Some z ->
     clamp k (Some (VInt z)) = Ok (field_of c k))
  /\ (forall s f,
        form_get form "bmi" = Some s -> py_float s = Some f ->
        clamp "bmi" (Some (VFloat f)) = Ok (bmi c)).
Proof.
  intros Hn. apply normalize_inr in Hn. destruct Hn as [Hv ->].
  apply usable_all in Hv. destruct Hv as (Ua & Ug & Ub & Ui & Um).
  split.
  - intros k s z Hk Hs Hz. cbn [In] in Hk.
    destruct Hk as [<- | [<- | [<- | [<- | []]]]];
      unfold field_of, settled, parsed, cast_int; cbn;
      rewrite Hs in *;
      match goal with
      | U : usable py_int (Some s) = true |- _ =>
          rewrite (to_number_parsed py_int VInt s z None
                     (usable_nonempty _ _ U) Hz)
      end; reflexivity.
  - intros s f Hs Hf. unfold settled, parsed, cast_float; cbn [bmi].
    rewrite Hs in *.
    rewrite (to_number_parsed py_float VFloat s f None
               (usable_nonempty _ _ Um) Hf).
    reflexivity.
Qed.

(** X11: in a request that normalises, an optional field whose entry is
    not empty and parses to a number other than zero ends as [clamp] of
    that number: the defaults replace nothing but blanks, rejected text and
    zeros. *)
Theorem X11_nonzero_optional_is_clamped_parse (form : Form) (c : inputs)
    (s : string) :
  normalize' form = Ok (inr c) -> s <> "" ->
  (forall z,
     form_get form "pregnancies" = Some s -> py_int s = Some z -> z <> 0 ->
     clamp "pregnancies" (Some (VInt z)) = Ok (pregnancies c))
  /\ (forall z,
        form_get form "skinthickness" = Some s -> py_int s = Some z ->
        z <> 0 ->
        clamp "skinthickness" (Some (VInt z)) = Ok (skinthickness c))
  /\ (forall f,
        form_get form "dpf" = Some s -> py_float s = Some f ->
        PrimFloat.eqb f 0 = false ->
        clamp "dpf" (Some (VFloat f)) = Ok (dpf c)).
Proof.
  intros Hn Hs. apply normalize_inr in Hn. destruct Hn as [_ ->].
  unfold settled, parsed, cast_int, cast_float;
    cbn [pregnancies skinthickness dpf].
  repeat split.
  - intros z -> Hz Hnz.
    rewrite (to_number_parsed py_int VInt s z _ Hs Hz).
    unfold defaulted. cbn [truthy].
    destruct (Z.eqb_spec z 0); [ contradiction | reflexivity ].
  - intros z -> Hz Hnz.
    rewrite (to_number_parsed py_int VInt s z _ Hs Hz).
    unfold defaulted. cbn [truthy].
    destruct (Z.eqb_spec z 0); [ contradiction | reflexivity ].
  - intros f -> Hf Hnz.
    rewrite (to_number_parsed py_float VFloat s f _ Hs Hf).
    unfold defaulted. cbn [truthy]. rewrite Hnz. reflexivity.
Qed.

End Fields.

(** ** Answers, and the table over time *)

Lemma combine_snoc {A B : Type} (l1 : list A) (l2 : list B) (a : A) (b : B) :
  List.length l1 = List.length l2 ->
  combine (l1 ++ [a]) (l2 ++ [b]) = (combine l1 l2 ++ [(a, b)])%list.
Proof.
  revert l2. induction l1 as [ | x l1 IH ]; intros [ | y l2 ] H;
    try discriminate; cbn.
  - reflexivity.
  - rewrite IH by (cbn in H; lia). reflexivity.
Qed.

Lemma with_ids_snoc (db : list row) (r : row) :
  with_ids (db ++ [r])
  = (with_ids db ++ [(Z.of_nat (S (List.length db)), r)])%list.
Proof.
  unfold with_ids. rewrite length_app. cbn [List.length].
  rewrite seq_app, map_app. cbn [seq map].
  rewrite combine_snoc by now rewrite length_map, length_seq.
  reflexivity.
Qed.

Lemma label_two_valued (k : Z) :
  label k = "Diabetes Risk" \/ label k = "No Risk".
Proof. unfold label. destruct (k =? 1); auto. Qed.

Section Answers.

Variable py_int : string -> option Z.
Variable py_float : string -> option float.
Variable py_round : float -> Z -> float.
Variable model : Classifier.

Local Abbreviation normalize' := (normalize py_int py_float).
Local Abbreviation invalid := (invalid_required py_int py_float).
Local Abbreviation predict' := (predict py_int py_float py_round model).
Local Abbreviation try_body' := (try_body model).
Local Abbreviation run' := (run py_int py_float py_round model).

(** The three ways a request ends. *)
Lemma predict_cases (form : Form) (db : list row) :
  (exists m,
     m <> [] /\ invalid form = m
     /\ predict' form db = (Ok (Text (validation_message m) 400), db))
  \/ (exists c X e,
        normalize' form = Ok (inr c) /\ sound c /\ features c = Ok X
        /\ try_body' X = Raise e
        /\ predict' form db
           = (Ok (Text ("Model prediction error: " ++ str e) 500), db))
  \/ (exists c X p k page r,
        normalize' form = Ok (inr c) /\ sound c /\ features c = Ok X
        /\ try_body' X = Ok (p, k)
        /\ predict' form db
           = (Ok (Template "result.html" page), (db ++ [r])%list)
        /\ row_inputs r = c /\ row_prediction r = label k
        /\ row_probability r = p
        /\ row_name r = form_get_or form "name" "Unknown"
        /\ ctx_name page = row_name r /\ ctx_result page = row_prediction r
        /\ ctx_inputs page = shown_inputs c).
Proof.
  pose proof (normalize_total py_int py_float form) as Hn.
  destruct (invalid form) as [ | k0 m ] eqn:E.
  - right.
    pose proof (settled_sound py_int py_float form E) as Hs.
    destruct (sound_features _ Hs) as (r & Hf & _).
    rewrite (predict_valid _ _ _ _ form db _ _ Hn Hf).
    destruct (try_body' [r]) as [[p k] | e] eqn:Ht; cbn [respond fst snd].
    + right. exists (settled (parsed py_int py_float form)), [r], p, k.
      do 2 eexists.
      split; [ exact Hn | ]. split; [ exact Hs | ]. split; [ exact Hf | ].
      split; [ exact Ht | ]. split; [ reflexivity | ]. cbn. repeat split.
    + left. exists (settled (parsed py_int py_float form)), [r], e.
      split; [ exact Hn | ]. split; [ exact Hs | ]. split; [ exact Hf | ].
      split; [ exact Ht | reflexivity ].
  - left. exists (k0 :: m). split; [ discriminate | ]. split; [ reflexivity | ].
    now apply predict_invalid.
Qed.

(** X12: the answer is a 400 exactly when some required field is unusable,
    and then it is the same whatever the classifier, the rounding and the
    table are: the classifier plays no part in a rejected request.  The
    answer is a 500 exactly when normalisation succeeded and one of the
    classifier calls failed on the array built. *)
Theorem X12_status_codes (form : Form) (db : list row) :
  ((exists body, fst (predict' form db) = Ok (Text body 400))
   <-> invalid form <> [])
  /\ ((exists body, fst (predict' form db) = Ok (Text body 500))
      <-> exists c X,
            normalize' form = Ok (inr c) /\ features c = Ok X
            /\ classifier_fails model X)
  /\ (invalid form <> [] ->
      forall round2 model2 db2,
        fst (predict py_int py_float round2 model2 form db2)
        = fst (predict' form db)).
Proof.
  split; [ | split ].
  - destruct (predict_cases form db)
      as [(m & Hm & Hi & Hp)
         | [(c & X & e & Hn & _ & _ & _ & Hp)
           | (c & X & p & k & page & r & Hn & _ & _ & _ & Hp & _)]];
      rewrite Hp; cbn [fst].
    + rewrite Hi. split; eauto.
    + apply normalize_inr in Hn. destruct Hn as [-> _].
      split; [ intros (b & H); discriminate | congruence ].
    + apply normalize_inr in Hn. destruct Hn as [-> _].
      split; [ intros (b & H); discriminate | congruence ].
  - destruct (predict_cases form db)
      as [(m & Hm & Hi & Hp)
         | [(c & X & e & Hn & _ & Hf & Ht & Hp)
           | (c & X & p & k & page & r & Hn & _ & Hf & Ht & Hp & _)]];
      rewrite Hp; cbn [fst].
    + split; [ intros (b & H); discriminate | ].
      intros (c & X & Hn & _). apply normalize_inr in Hn. destruct Hn.
      congruence.
    + split; [ intros _ | eauto ]. exists c, X. repeat split; auto.
      apply (try_body_cases model X). eauto.
    + split; [ intros (b & H); discriminate | ].
      intros (c' & X' & Hn' & Hf' & Hc).
      assert (c' = c) by congruence. subst c'.
      assert (X' = X) by congruence. subst X'.
      apply (try_body_cases model X) in Hc. destruct Hc as (e & He).
      congruence.
  - intros Hi round2 model2 db2.
    pose proof (normalize_total py_int py_float form) as Hn.
    destruct (invalid form) as [ | k0 m ]; [ contradiction | ].
    now rewrite !(predict_invalid _ _ _ _ form _ _ Hn).
Qed.

(** X13: the view reads the form through nine keys only (name and the
    eight field names): two forms that [get] answers alike on these keys
    get the same answer and leave the same table, whatever else they hold,
    other keys or later repetitions of a key. *)
Theorem X13_only_nine_keys_are_read (form form2 : Form) (db : list row) :
  (forall k, In k form_keys -> form_get form k = form_get form2 k) ->
  predict' form db = predict' form2 db.
Proof.
  intros H. unfold form_get in H.
  pose proof (H "name" ltac:(cbn; tauto)) as H0.
  pose proof (H "age" ltac:(cbn; tauto)) as H1.
  pose proof (H "glucose" ltac:(cbn; tauto)) as H2.
  pose proof (H "bloodpressure" ltac:(cbn; tauto)) as H3.
  pose proof (H "insulin" ltac:(cbn; tauto)) as H4.
  pose proof (H "bmi" ltac:(cbn; tauto)) as H5.
  pose proof (H "pregnancies" ltac:(cbn; tauto)) as H6.
  pose proof (H "skinthickness" ltac:(cbn; tauto)) as H7.
  pose proof (H "dpf" ltac:(cbn; tauto)) as H8.
  unfold predict, normalize, parse, form_get_or, form_get.
  now rewrite H0, H1, H2, H3, H4, H5, H6, H7, H8.
Qed.

(** X14: a name that was submitted is stored and shown as it is, the empty
    name included: only a request without a name entry gets "Unknown". *)
Theorem X14_submitted_name_is_kept (form : Form) (db : list row) (n : string)
    (c : inputs) (X : list (list float)) (p : float) (k : Z) :
  form_get form "name" = Some n ->
  normalize' form = Ok (inr c) -> features c = Ok X ->
  try_body' X = Ok (p, k) ->
  exists page r,
    predict' form db = (Ok (Template "result.html" page), (db ++ [r])%list)
    /\ ctx_name page = n /\ row_name r = n.
Proof.
  intros Hname Hn Hf Ht.
  rewrite (predict_valid _ _ _ _ form db c X Hn Hf), Ht. cbn [respond fst snd].
  unfold form_get_or. unfold form_get in Hname. rewrite Hname.
  eexists. eexists. split; [ reflexivity | ]. cbn. auto.
Qed.

(** X15: what [records] lists after a request.  When the answer is the
    result page, the list starts with the row just stored, under the id
    one above the number of rows there were, followed by the former list
    with its ids unchanged; after any other answer the list is the same as
    before. *)
Theorem X15_records_after_a_request (form : Form) (db : list row) :
  match predict' form db with
  | (Ok (Template _ page), db') =>
      exists r,
        select_desc db'
        = (Z.of_nat (S (List.length db)), r) :: select_desc db
        /\ records db' = r :: records db
        /\ row_name r = ctx_name page
        /\ row_prediction r = ctx_result page
        /\ shown_inputs (row_inputs r) = ctx_inputs page
  | (_, db') => select_desc db' = select_desc db /\ records db' = records db
  end.
Proof.
  destruct (predict_cases form db)
    as [(m & _ & _ & Hp)
       | [(c & X & e & _ & _ & _ & _ & Hp)
         | (c & X & p & k & page & r & _ & _ & _ & _ & Hp & Hc & _ & _ & _
            & H1 & H2 & H3)]];
    rewrite Hp; auto.
  exists r. unfold select_desc, records.
  rewrite with_ids_snoc, !rev_app_distr. cbn.
  repeat split; congruence.
Qed.

Lemma run_step (form : Form) (db : list row) :
  exists page new,
    predict' form db = (Ok page, (db ++ new)%list)
    /\ Forall row_ok new
    /\ List.length new = (if is_page (Ok page) then 1 else 0)%nat.
Proof.
  destruct (predict_cases form db)
    as [(m & _ & _ & Hp)
       | [(c & X & e & _ & _ & _ & _ & Hp)
         | (c & X & p & k & page & r & _ & Hs & _ & _ & Hp & Hc & Hl & _)]];
    rewrite Hp.
  - eexists. exists []. rewrite app_nil_r. repeat split. constructor.
  - eexists. exists []. rewrite app_nil_r. repeat split. constructor.
  - exists (Template "result.html" page), [r]. repeat split.
    constructor; [ | constructor ].
    unfold row_ok. rewrite Hc, Hl. auto using label_two_valued.
Qed.

(** X16: over any run of requests on one table, every request is answered
    (none ends in an exception), the rows that were there stay in front
    untouched, exactly one row is added per result page, and every added
    row has its eight inputs inside their ranges and one of the two
    labels. *)
Theorem X16_table_only_grows_by_sound_rows (reqs : list Form)
    (db : list row) :
  exists new,
    snd (run' reqs db) = (db ++ new)%list
    /\ Forall row_ok new
    /\ List.length new
       = List.length (filter is_page (fst (run' reqs db)))
    /\ List.length (fst (run' reqs db)) = List.length reqs
    /\ Forall (fun a => exists page, a = Ok page) (fst (run' reqs db)).
Proof.
  revert db. induction reqs as [ | form reqs IH ]; intros db.
  - exists []. cbn. rewrite app_nil_r. repeat split; constructor.
  - destruct (run_step form db) as (page & new1 & Hp & Hok & Hlen).
    destruct (IH (db ++ new1)%list) as (new2 & H1 & H2 & H3 & H4 & H5).
    exists (new1 ++ new2)%list. cbn [run]. rewrite Hp.
    destruct (run' reqs (db ++ new1)) as [answers db2] eqn:E.
    cbn [fst snd] in *. subst db2.
    split; [ now rewrite app_assoc | ].
    split; [ now apply Forall_app | ].
    split; [ | split ].
    + rewrite length_app, Hlen, H3. cbn [filter].
      destruct (is_page (Ok page)); reflexivity.
    + cbn. now rewrite H4.
    + constructor; eauto.
Qed.

(** X17: the names a 400 reports come in the fixed order age, glucose,
    bloodpressure, insulin, bmi, whatever the order of the form's entries:
    the list is the list of these five names without those that are not
    reported. *)
Theorem X17_missing_keeps_the_order_of_required (form : Form)
    (m : list string) :
  normalize' form = Ok (inl m) ->
  m <> []
  /\ m = filter (fun k => existsb (String.eqb k) m) required_names.
Proof.
  rewrite normalize_total. unfold invalid_required.
  destruct (usable py_int (form_get form "age")),
           (usable py_int (form_get form "glucose")),
           (usable py_int (form_get form "bloodpressure")),
           (usable py_int (form_get form "insulin")),
           (usable py_float (form_get form "bmi")); cbn [app];
    intros H; inversion H; subst; split; try discriminate; reflexivity.
Qed.

End Answers.

(** ** Instances of the further properties *)

Lemma X2_idempotent_witness :
  clamp "glucose" (Some (VInt 9999)) = Ok (Some (VInt 500))
  /\ clamp "glucose" (Some (VInt 500)) = Ok (Some (VInt 500)).
Proof.
  split; [ reflexivity | ].
  apply (X2_clamp_idempotent "glucose" (Some (VInt 9999))). reflexivity.
Defined.

Lemma X3_within_witness :
  clamp "bmi" (Some (VFloat infinity)) = Ok (Some (VFloat 70%float))
  /\ within "bmi" (Some (VFloat 70%float)) = true.
Proof.
  split; [ reflexivity | ].
  apply (X3_clamp_result_within_range "bmi" (VFloat infinity)). reflexivity.
Defined.

Lemma X4_saturates_int_witness :
  clamp "glucose" (Some (VInt 9999)) = Ok (Some (VInt 500))
  /\ clamp "glucose" (Some (VInt 3)) = Ok (Some (VInt 20))
  /\ clamp "glucose" (Some (VInt 180)) = Ok (Some (VInt 180)).
Proof.
  split; [ | split ].
  - apply (proj1 (proj2 (proj2 (proj2
             (clamp_saturates_int "glucose" 20 500 9999 eq_refl))))). lia.
  - apply (proj1 (proj2 (proj2
             (clamp_saturates_int "glucose" 20 500 3 eq_refl)))). lia.
  - apply (proj2 (proj2 (proj2 (proj2
             (clamp_saturates_int "glucose" 20 500 180 eq_refl))))). lia.
Defined.

Lemma X5_saturates_float_witness :
  clamp "dpf" (Some (VFloat (-1)%float)) = Ok (Some (VFloat 0%float))
  /\ clamp "dpf" (Some (VFloat 7.5%float)) = Ok (Some (VFloat 3%float))
  /\ clamp "dpf" (Some (VFloat 3%float)) = Ok (Some (VFloat 3%float))
  /\ clamp "dpf" (Some (VFloat (-0)%float)) = Ok (Some (VFloat 0%float)).
Proof.
  split; [ | split; [ | split ] ].
  - apply (proj1 (clamp_saturates_float "dpf" 0 3 (-1) eq_refl)).
    reflexivity.
  - apply (proj1 (proj2 (clamp_saturates_float "dpf" 0 3 7.5 eq_refl))).
    reflexivity.
  - apply (proj1 (proj2 (proj2
             (clamp_saturates_float "dpf" 0 3 3 eq_refl)))); reflexivity.
  - apply (proj2 (proj2 (proj2
             (clamp_saturates_float "dpf" 0 3 (-0) eq_refl)))); reflexivity.
Defined.

Lemma X6_nan_witness :
  clamp "dpf" (Some (VFloat nan)) = Ok (Some (VFloat 3%float))
  /\ clamp "age" (Some (VFloat nan)) = Ok (Some (VInt 120)).
Proof.
  split.
  - apply (X6_clamp_sends_nan_to_upper_bound "dpf" (VFloat 0) (VFloat 3) nan);
      reflexivity.
  - apply (X6_clamp_sends_nan_to_upper_bound "age" (VInt 1) (VInt 120) nan);
      reflexivity.
Defined.

Lemma X7_monotone_witness :
  exists a b,
    clamp "glucose" (Some (VInt 10)) = Ok (Some (VInt a))
    /\ clamp "glucose" (Some (VInt 9999)) = Ok (Some (VInt b))
    /\ a <= b.
Proof.
  apply (X7_clamp_monotone_on_ints "glucose" 20 500 10 9999);
    [ reflexivity | lia ].
Defined.

Lemma X9_exact_witness :
  exists r,
    features sample_inputs = Ok [r]
    /\ Forall2 represents (feature_row sample_inputs) r.
Proof.
  apply (X9_feature_row_is_exact int_literal float_literal sample_form).
  vm_compute. reflexivity.
Defined.

Lemma X10_required_witness :
  int_literal "0" = Some 0
  /\ clamp "insulin" (Some (VInt 0)) = Ok (Some (VInt 0))
  /\ clamp "bmi" (Some (VFloat 32.5%float)) = Ok (Some (VFloat 32.5%float)).
Proof.
  assert (H : normalize int_literal float_literal (submit "insulin" "0")
              = Ok (inr {| pregnancies := Some (VInt 0);
                           age := Some (VInt 45);
                           glucose := Some (VInt 180);
                           bloodpressure := Some (VInt 90);
                           skinthickness := Some (VInt 10);
                           insulin := Some (VInt 0);
                           bmi := Some (VFloat 32.5%float);
                           dpf := Some (VFloat 0.2%float) |}))
    by (vm_compute; reflexivity).
  destruct (X10_required_field_is_clamped_parse int_literal float_literal
              _ _ H) as [Hi Hf].
  split; [ reflexivity | ]. split.
  - apply (Hi "insulin" "0" 0); [ cbn; tauto | reflexivity | reflexivity ].
  - apply (Hf "32.5" 32.5%float); vm_compute; reflexivity.
Defined.

Lemma X11_optional_witness :
  float_literal "0.1" = Some 0.1%float
  /\ clamp "dpf" (Some (VFloat 0.1%float)) = Ok (Some (VFloat 0.1%float)).
Proof.
  assert (H : normalize int_literal float_literal (submit "dpf" "0.1")
              = Ok (inr {| pregnancies := Some (VInt 0);
                           age := Some (VInt 45);
                           glucose := Some (VInt 180);
                           bloodpressure := Some (VInt 90);
                           skinthickness := Some (VInt 10);
                           insulin := Some (VInt 120);
                           bmi := Some (VFloat 32.5%float);
                           dpf := Some (VFloat 0.1%float) |}))
    by (vm_compute; reflexivity).
  assert (Hs : "0.1" <> "") by discriminate.
  destruct (X11_nonzero_optional_is_clamped_parse int_literal float_literal
              _ _ "0.1" H Hs) as (_ & _ & Hd).
  split; [ vm_compute; reflexivity | ].
  apply (Hd 0.1%float); vm_compute; reflexivity.
Defined.

Lemma X13_keys_witness :
  predict int_literal float_literal round_literal (steady 0.25 0.75 1)
    sample_form []
  = predict int_literal float_literal round_literal (steady 0.25 0.75 1)
      (("comment", "none") :: sample_form ++ [("age", "abc")])%list [].
Proof.
  apply (X13_only_nine_keys_are_read int_literal float_literal round_literal
           (steady 0.25 0.75 1)).
  intros k Hk. cbn [In form_keys] in Hk.
  repeat (destruct Hk as [<- | Hk]; [ reflexivity | ]). destruct Hk.
Defined.

Lemma X14_name_witness :
  exists page r,
    predict int_literal float_literal round_literal (steady 0.25 0.75 1)
      (submit "name" "") []
    = (Ok (Template "result.html" page), ([] ++ [r])%list)
    /\ ctx_name page = "" /\ row_name r = "".
Proof.
  apply (X14_submitted_name_is_kept int_literal float_literal round_literal
           (steady 0.25 0.75 1) (submit "name" "") [] "" sample_inputs
           [[0; 180; 90; 10; 120; 32.5; 0.2; 45]%float] 0.75%float 1);
    vm_compute; reflexivity.
Defined.

Lemma X17_order_witness :
  [ "glucose"; "bmi" ] <> []
  /\ [ "glucose"; "bmi" ]
     = filter (fun k => existsb (String.eqb k) [ "glucose"; "bmi" ])
         required_names.
Proof.
  apply (X17_missing_keeps_the_order_of_required int_literal float_literal
           (("bmi", "x") :: ("glucose", "") :: sample_form)).
  vm_compute. reflexivity.
Defined.

(** ** What an answer does not depend on *)

Section Independence.

Variable py_int : string -> option Z.
Variable py_float : string -> option float.
Variable py_round : float -> Z -> float.
Variable model : Classifier.

Local Abbreviation normalize' := (normalize py_int py_float).
Local Abbreviation predict' := (predict py_int py_float py_round model).

(** X18: whether a request is rejected, and with which names, is decided by
    its entries under the five required names alone: two forms that agree
    there are rejected with the same list or both accepted, whatever their
    optional entries and their name are. *)
Theorem X18_validation_reads_required_only (form form2 : Form) :
  (forall k, In k required_names -> form_get form k = form_get form2 k) ->
  (forall m, normalize' form = Ok (inl m) <-> normalize' form2 = Ok (inl m))
  /\ ((exists c, normalize' form = Ok (inr c))
      <-> (exists c, normalize' form2 = Ok (inr c))).
Proof.
  intros H.
  assert (E : invalid_required py_int py_float form
              = invalid_required py_int py_float form2).
  { unfold invalid_required.
    now rewrite (H "age"), (H "glucose"), (H "bloodpressure"), (H "insulin"),
      (H "bmi") by (cbn; tauto). }
  rewrite !normalize_total, E.
  destruct (invalid_required py_int py_float form2); split.
  - intros m. split; discriminate.
  - split; eauto.
  - intros m. split; auto.
  - split; intros (c & Hc); discriminate.
Qed.

(** X19: the rows already in the table play no part in a request: the
    answer is the same on any table, and so is the row added, if any. *)
Theorem X19_answer_ignores_the_table (form : Form) (db1 db2 : list row) :
  fst (predict' form db1) = fst (predict' form db2)
  /\ exists new,
       snd (predict' form db1) = (db1 ++ new)%list
       /\ snd (predict' form db2) = (db2 ++ new)%list.
Proof.
  unfold predict.
  destruct (normalize' form) as [[m | c] | e]; cbn [fst snd].
  - split; [ reflexivity | ]. exists []. now rewrite !app_nil_r.
  - destruct (features c) as [X | e]; cbn [fst snd].
    + unfold respond. destruct (try_body model X) as [[p k] | e];
        cbn [fst snd].
      * split; [ reflexivity | ]. eexists. split; reflexivity.
      * split; [ reflexivity | ]. exists []. now rewrite !app_nil_r.
    + split; [ reflexivity | ]. exists []. now rewrite !app_nil_r.
  - split; [ reflexivity | ]. exists []. now rewrite !app_nil_r.
Qed.

End Independence.

Lemma X18_required_only_witness :
  (forall m,
     normalize int_literal float_literal sample_form = Ok (inl m)
     <-> normalize int_literal float_literal
           (("dpf", "abc") :: ("name", "Ann") :: sample_form) = Ok (inl m))
  /\ ((exists c, normalize int_literal float_literal sample_form = Ok (inr c))
      <-> (exists c,
             normalize int_literal float_literal
               (("dpf", "abc") :: ("name", "Ann") :: sample_form)
             = Ok (inr c))).
Proof.
  apply (X18_validation_reads_required_only int_literal float_literal).
  intros k Hk. cbn [In required_names] in Hk.
  repeat (destruct Hk as [<- | Hk]; [ reflexivity | ]). destruct Hk.
Defined.
